(** * cci_logger: a shallow embedding of [cci_logger.hh] / [cci_logger.cc]

    The logger is single-threaded and synchronous.  Its pure parts (the
    time-format scanner, the function-name extraction, the configuration
    mutators) are embedded as functions; its effectful parts ([print_log],
    [ask_continue], [log]) run in a small state-and-exception monad over the
    [Logger] object and the process environment (the two output streams,
    standard input, the terminal probe and the wall clock). *)

From Stdlib Require Import ZArith NArith List Bool Lia.
From Stdlib Require Import Strings.String Strings.Ascii Numbers.DecimalString.
Import ListNotations.

Local Open Scope string_scope.
Local Open Scope Z_scope.

(* ================================================================== *)
(** * Strings, as the C++ library gives them to the logger *)
(* ================================================================== *)

Module Str.

(** [std::to_string] on an integer, and the digits [operator<<] prints. *)
Definition to_string (v : Z) : string :=
  NilZero.string_of_int (Z.to_int v).

Fixpoint fill (n : nat) (c : ascii) : string :=
  match n with
  | O => ""
  | S k => String c (fill k c)
  end.

(** [size_t] is 64 bits wide; [npos] is its largest value. *)
Definition size_max : N := (2 ^ 64)%N.
Definition npos : N := (size_max - 1)%N.
Definition size_add (a b : N) : N := ((a + b) mod size_max)%N.

Definition size (s : string) : N := N.of_nat (String.length s).

(** [s.find(c)] and, for a single character, [s.find_first_of(c)]:
    the index of the first occurrence, [npos] when there is none. *)
Fixpoint find_from (c : ascii) (s : string) (i : N) : N :=
  match s with
  | "" => npos
  | String d r => if Ascii.eqb d c then i else find_from c r (N.succ i)
  end.

Definition find (c : ascii) (s : string) : N := find_from c s 0%N.

(** [string_view::substr(0, n)] and [string_view::remove_prefix(n)];
    [remove_prefix] requires [n <= size()]. *)
Definition sv_substr (pos n : nat) (s : string) : string :=
  substring pos (Nat.min n (String.length s - pos)) s.

Definition sv_remove_prefix (n : nat) (s : string) : option string :=
  if (n <=? String.length s)%nat
  then Some (substring n (String.length s - n) s)
  else None.

Definition sv_empty (s : string) : bool :=
  match s with "" => true | _ => false end.

(** [std::tolower] in the "C" locale. *)
Definition tolower (c : ascii) : ascii :=
  let n := nat_of_ascii c in
  if ((65 <=? n) && (n <=? 90))%nat then ascii_of_nat (n + 32) else c.

Definition ESC : string := String (ascii_of_nat 27) "".
Definition NL : string := String (ascii_of_nat 10) "".

End Str.

(* ================================================================== *)
(** * The wall clock and the output string stream of [format_time] *)
(* ================================================================== *)

(** What [format_time] reads from the clock: the broken-down local time
    ([struct tm]) and the millisecond remainder of the time point. *)
Record TimePoint : Type := mkTime {
  tm_year : Z;   (* years since 1900 *)
  tm_mon  : Z;   (* months since January *)
  tm_mday : Z;
  tm_hour : Z;
  tm_min  : Z;
  tm_sec  : Z;
  ms      : Z    (* duration_cast<milliseconds>(...) % 1000 *)
}.

(** [std::ostringstream]: the buffer, and the two pieces of formatting
    state the function touches.  [setw] lasts for one insertion, [setfill]
    stays. *)
Record ostringstream : Type := mkOs {
  os_buf   : string;
  os_width : nat;
  os_fill  : ascii
}.

Module Os.

Definition empty : ostringstream := mkOs "" 0 " "%char.

Definition setw (n : nat) (o : ostringstream) : ostringstream :=
  mkOs (os_buf o) n (os_fill o).

Definition setfill (c : ascii) (o : ostringstream) : ostringstream :=
  mkOs (os_buf o) (os_width o) c.

(** A formatted insertion: the text is padded on the left with the fill
    character up to the field width, and the width goes back to zero. *)
Definition put (text : string) (o : ostringstream) : ostringstream :=
  mkOs (os_buf o
        ++ Str.fill (os_width o - String.length text) (os_fill o)
        ++ text)
       0 (os_fill o).

Definition put_int (v : Z) (o : ostringstream) : ostringstream :=
  put (Str.to_string v) o.

Definition put_char (c : ascii) (o : ostringstream) : ostringstream :=
  put (String c "") o.

(** [std::put_time(&tm, "%Y-%m-%d")]: the year as a decimal number, the
    month (01-12) and the day of the month (01-31) on two digits. *)
Definition two_digits (v : Z) : string :=
  Str.fill (2 - String.length (Str.to_string v)) "0"%char
    ++ Str.to_string v.

Definition put_time_Ymd (t : TimePoint) (o : ostringstream)
  : ostringstream :=
  mkOs (os_buf o
        ++ Str.to_string (tm_year t + 1900) ++ "-"
        ++ two_digits (tm_mon t + 1) ++ "-"
        ++ two_digits (tm_mday t))
       0 (os_fill o).

Definition str (o : ostringstream) : string := os_buf o.

End Os.

(* ================================================================== *)
(** * [format_time] (cci_logger.cc, lines 21-62) *)
(* ================================================================== *)

(** One turn of the [while (!p_fmt.empty())] loop: the remaining format and
    the stream after the turn.  [None] would be a [remove_prefix] past the
    end of the view. *)
Definition format_time_step (now : TimePoint) (p_fmt : string)
    (out : ostringstream) : option (string * ostringstream) :=
  match String.get 0 p_fmt with
  | None => None
  | Some c0 =>
    if Ascii.eqb c0 "%" && (2 <=? String.length p_fmt)%nat then
      if String.eqb (Str.sv_substr 0 3 p_fmt) "%MS" then
        option_map (fun r => (r, Os.put_int (ms now)
                                   (Os.setfill "0" (Os.setw 3 out))))
                   (Str.sv_remove_prefix 3 p_fmt)
      else if String.eqb (Str.sv_substr 0 2 p_fmt) "%S" then
        option_map (fun r => (r, Os.put_int (tm_sec now)
                                   (Os.setfill "0" (Os.setw 2 out))))
                   (Str.sv_remove_prefix 2 p_fmt)
      else if String.eqb (Str.sv_substr 0 2 p_fmt) "%M" then
        option_map (fun r => (r, Os.put_int (tm_min now)
                                   (Os.setfill "0" (Os.setw 2 out))))
                   (Str.sv_remove_prefix 2 p_fmt)
      else if String.eqb (Str.sv_substr 0 2 p_fmt) "%H" then
        option_map (fun r => (r, Os.put_int (tm_hour now)
                                   (Os.setfill "0" (Os.setw 2 out))))
                   (Str.sv_remove_prefix 2 p_fmt)
      else if String.eqb (Str.sv_substr 0 2 p_fmt) "%D" then
        option_map (fun r => (r, Os.put_time_Ymd now out))
                   (Str.sv_remove_prefix 2 p_fmt)
      else
        option_map (fun r => (r, Os.put_char c0 out))
                   (Str.sv_remove_prefix 1 p_fmt)
    else
      option_map (fun r => (r, Os.put_char c0 out))
                 (Str.sv_remove_prefix 1 p_fmt)
  end.

(** The loop, with a bound on the number of turns: [None] when the bound is
    reached before the format is empty. *)
Fixpoint format_time_loop (fuel : nat) (now : TimePoint) (p_fmt : string)
    (out : ostringstream) : option ostringstream :=
  if Str.sv_empty p_fmt then Some out
  else
    match fuel with
    | O => None
    | S fuel' =>
      match format_time_step now p_fmt out with
      | None => None
      | Some (p_fmt', out') => format_time_loop fuel' now p_fmt' out'
      end
    end.

(** [format_time]: the loop is given one turn per character of the format. *)
Definition format_time (now : TimePoint) (p_fmt : string) : option string :=
  option_map Os.str
    (format_time_loop (String.length p_fmt) now p_fmt Os.empty).

(** ** The renderer as the specification words it

    Left to right; at each position the longest token that is a prefix of
    the remaining format is replaced, any other character is copied. *)

Definition zero_pad (width : nat) (v : Z) : string :=
  Str.fill (width - String.length (Str.to_string v)) "0"%char
    ++ Str.to_string v.

Definition date_YYYY_MM_DD (t : TimePoint) : string :=
  Str.to_string (tm_year t + 1900) ++ "-"
    ++ zero_pad 2 (tm_mon t + 1) ++ "-" ++ zero_pad 2 (tm_mday t).

Fixpoint render (now : TimePoint) (fmt : string) : string :=
  match fmt with
  | "" => ""
  | String c r1 =>
    let literal := String c (render now r1) in
    if Ascii.eqb c "%" then
      match r1 with
      | "" => literal
      | String c1 r2 =>
        if Ascii.eqb c1 "M" then
          match r2 with
          | "" => zero_pad 2 (tm_min now) ++ render now r2
          | String c2 r3 =>
            if Ascii.eqb c2 "S"
            then zero_pad 3 (ms now) ++ render now r3
            else zero_pad 2 (tm_min now) ++ render now r2
          end
        else if Ascii.eqb c1 "S" then zero_pad 2 (tm_sec now) ++ render now r2
        else if Ascii.eqb c1 "H" then zero_pad 2 (tm_hour now) ++ render now r2
        else if Ascii.eqb c1 "D" then date_YYYY_MM_DD now ++ render now r2
        else literal
      end
    else literal
  end.

(** A format begins with a token when it begins with [%M], [%S], [%H] or
    [%D] ([%MS] begins with [%M]). *)
Definition starts_with_token (s : string) : bool :=
  match s with
  | String c (String c1 _) =>
    Ascii.eqb c "%"
    && (Ascii.eqb c1 "M" || Ascii.eqb c1 "S"
        || Ascii.eqb c1 "H" || Ascii.eqb c1 "D")
  | _ => false
  end.

Definition starts_with_S (s : string) : bool :=
  match s with
  | String c _ => Ascii.eqb c "S"
  | "" => false
  end.

(* ================================================================== *)
(** * Levels, call sites and the [Logger] object (cci_logger.hh) *)
(* ================================================================== *)

(** [enum LogLevel : uint8_t].  The last enumerator counts the levels; it is
    a value of the type all the same. *)
Inductive LogLevel : Type :=
  | DEBUG
  | INFO
  | WARN
  | ERROR
  | __LOG_LEVEL_AMOUNT.

Definition level_value (l : LogLevel) : Z :=
  match l with
  | DEBUG => 0
  | INFO => 1
  | WARN => 2
  | ERROR => 3
  | __LOG_LEVEL_AMOUNT => 4
  end.

Definition level_lt (a b : LogLevel) : bool := level_value a <? level_value b.
Definition level_ge (a b : LogLevel) : bool := level_value b <=? level_value a.
Definition level_eq (a b : LogLevel) : bool := level_value a =? level_value b.

Record source_location : Type := mkLoc {
  file_name     : string;
  function_name : string;
  line          : N
}.

Record FormatString : Type := mkFormatString {
  fmt    : string;
  source : source_location
}.

Record Logger : Type := mkLogger {
  m_threshold_level : LogLevel;
  m_time_format     : string;
  m_log_format      : string;
  m_coloured        : bool;
  m_ask_continue    : bool;
  m_abort_on_err    : bool
}.

(** [Logger::Logger]; [m_log_format] is default-constructed. *)
Definition Logger_new (p_loglevel : LogLevel) : Logger :=
  mkLogger p_loglevel "%M:%S.%MS" "" true true true.

Definition Logger_default_loglevel : LogLevel := WARN.

Definition set_time_format (p_fmt : string) (l : Logger) : Logger :=
  mkLogger (m_threshold_level l) p_fmt (m_log_format l)
           (m_coloured l) (m_ask_continue l) (m_abort_on_err l).

(** The default argument of [set_time_format] in the class declaration
    (cci_logger.hh, line 48), and the call that leaves the argument out. *)
Definition set_time_format_default_argument : string := "%MS.%S:%M".

Definition set_time_format_no_argument (l : Logger) : Logger :=
  set_time_format set_time_format_default_argument l.

Definition set_log_format (p_fmt : string) (l : Logger) : Logger :=
  mkLogger (m_threshold_level l) (m_time_format l) p_fmt
           (m_coloured l) (m_ask_continue l) (m_abort_on_err l).

Definition set_log_format_clear (l : Logger) : Logger :=
  set_log_format "" l.

Definition abort_on_error (p_abort : bool) (l : Logger) : Logger :=
  mkLogger (m_threshold_level l) (m_time_format l) (m_log_format l)
           (m_coloured l) (m_ask_continue l) p_abort.

Definition ask_continue_on_error (p_ask : bool) (l : Logger) : Logger :=
  mkLogger (m_threshold_level l) (m_time_format l) (m_log_format l)
           (m_coloured l) p_ask (m_abort_on_err l).

Definition set_coloured_log (p_coloured : bool) (l : Logger) : Logger :=
  mkLogger (m_threshold_level l) (m_time_format l) (m_log_format l)
           p_coloured (m_ask_continue l) (m_abort_on_err l).

(** [m_LOG_LABELS] and [m_LOG_FORMATS]: (coloured, plain). *)
Definition m_LOG_LABELS : list (string * string) :=
  [ (Str.ESC ++ "[1;36mdebug" ++ Str.ESC ++ "[0;0;0m", "debug");
    (Str.ESC ++ "[1;32minfo"  ++ Str.ESC ++ "[0;0;0m", "info");
    (Str.ESC ++ "[1;33mwarn"  ++ Str.ESC ++ "[0;0;0m", "warn");
    (Str.ESC ++ "[1;31merror" ++ Str.ESC ++ "[0;0;0m", "error") ].

Definition m_LOG_FORMATS : string * string :=
  ( "[{0} {1} at " ++ Str.ESC ++ "[1m{2}" ++ Str.ESC ++ "[0m( "
      ++ Str.ESC ++ "[1;30m{3}:{4}" ++ Str.ESC ++ "[0;0m )]: "
      ++ Str.ESC ++ "[1m{5}" ++ Str.ESC ++ "[0m" ++ Str.NL,
    "[{0} {1} at {2}( {3}:{4} )]: {5}" ++ Str.NL ).

(* ================================================================== *)
(** * The process environment *)
(* ================================================================== *)

(** [std::cin]: the characters not yet read and the two state bits that
    [std::getline] sets. *)
Record istream : Type := mkIs {
  is_buf  : string;
  is_eof  : bool;
  is_fail : bool
}.

Record World : Type := mkWorld {
  w_cerr      : string;     (* everything written to std::cerr *)
  w_clog      : string;     (* everything written to std::clog *)
  w_cin       : istream;
  w_stdin_tty : bool;       (* isatty(fileno(stdin)) *)
  w_clock     : TimePoint;  (* what the system clock shows *)
  w_ask_calls : nat         (* ghost: how often ask_continue was entered *)
}.

Definition cerr_put (text : string) (w : World) : World :=
  mkWorld (w_cerr w ++ text) (w_clog w) (w_cin w) (w_stdin_tty w)
          (w_clock w) (w_ask_calls w).

Definition clog_put (text : string) (w : World) : World :=
  mkWorld (w_cerr w) (w_clog w ++ text) (w_cin w) (w_stdin_tty w)
          (w_clock w) (w_ask_calls w).

Definition with_cin (i : istream) (w : World) : World :=
  mkWorld (w_cerr w) (w_clog w) i (w_stdin_tty w)
          (w_clock w) (w_ask_calls w).

Definition count_ask (w : World) : World :=
  mkWorld (w_cerr w) (w_clog w) (w_cin w) (w_stdin_tty w)
          (w_clock w) (S (w_ask_calls w)).

(** Splitting the unread input at the first newline. *)
Fixpoint split_line (s : string) : option (string * string) :=
  match s with
  | "" => None
  | String c r =>
    if Ascii.eqb c (ascii_of_nat 10) then Some ("", r)
    else match split_line r with
         | Some (l, rest) => Some (String c l, rest)
         | None => None
         end
  end.

(** [std::getline(std::cin, line)].  The sentry fails on a stream that is
    not good: it sets [failbit] and the string is left as it was.
    Otherwise the string is erased and filled up to the newline, which is
    consumed, or up to the end of the input, which sets [eofbit] (and
    [failbit] when nothing was extracted). *)
Definition getline (i : istream) (line : string) : istream * string :=
  if is_eof i || is_fail i then (mkIs (is_buf i) (is_eof i) true, line)
  else
    match split_line (is_buf i) with
    | Some (l, rest) => (mkIs rest false false, l)
    | None => (mkIs "" true (Str.sv_empty (is_buf i)), is_buf i)
    end.

(* ================================================================== *)
(** * Running member functions: state, exceptions, abort *)
(* ================================================================== *)

Inductive exception : Type :=
  | format_error    (* std::format_error *)
  | out_of_range.   (* std::out_of_range *)

Inductive result (A : Type) : Type :=
  | Ok (a : A)             (* the call returns *)
  | Throw (e : exception)  (* an exception leaves the call *)
  | Abort                  (* std::abort() *)
  | OutOfBounds            (* an array read past its end *)
  | OutOfFuel.             (* the model's loop bound was reached *)

Arguments Ok {A} a.
Arguments Throw {A} e.
Arguments Abort {A}.
Arguments OutOfBounds {A}.
Arguments OutOfFuel {A}.

(** Sequencing for code that touches no state. *)
Definition result_bind {A B} (r : result A) (k : A -> result B) : result B :=
  match r with
  | Ok a => k a
  | Throw e => Throw e
  | Abort => Abort
  | OutOfBounds => OutOfBounds
  | OutOfFuel => OutOfFuel
  end.

(** A member function runs on [*this] and the environment. *)
Definition M (A : Type) : Type :=
  Logger * World -> result A * (Logger * World).

Definition ret {A} (a : A) : M A := fun s => (Ok a, s).

Definition bind {A B} (m : M A) (k : A -> M B) : M B :=
  fun s =>
    match m s with
    | (Ok a, s') => k a s'
    | (Throw e, s') => (Throw e, s')
    | (Abort, s') => (Abort, s')
    | (OutOfBounds, s') => (OutOfBounds, s')
    | (OutOfFuel, s') => (OutOfFuel, s')
    end.

Definition lift {A} (r : result A) : M A := fun s => (r, s).
Definition this : M Logger := fun s => (Ok (fst s), s).
Definition world : M World := fun s => (Ok (snd s), s).
Definition modify_world (f : World -> World) : M unit :=
  fun s => (Ok tt, (fst s, f (snd s))).
Definition std_abort {A} : M A := lift Abort.

Declare Scope logger_scope.
Notation "x <- m ;; k" := (bind m (fun x => k))
  (at level 61, m at next level, right associativity) : logger_scope.
Notation "m ;;; k" := (bind m (fun _ => k))
  (at level 61, right associativity) : logger_scope.
Local Open Scope logger_scope.

(* ================================================================== *)
(** * [std::string::substr] and the outcome of formatting *)
(* ================================================================== *)

(** [s.substr(pos, n)] throws [std::out_of_range] when [pos > size()]. *)
Definition substr (s : string) (pos n : N) : result string :=
  if (Str.size s <? pos)%N then Throw out_of_range
  else Ok (substring (N.to_nat pos)
                     (N.to_nat (N.min n (Str.size s - pos))) s).

(** Lines 115-116 of [Logger::log]:
    [function = function.substr(function.find_first_of(' ') + 1);]
    [function = function.substr(0, function.find('('));] *)
Definition bare_function_name (function : string) : result string :=
  result_bind
    (substr function (Str.size_add (Str.find " "%char function) 1) Str.npos)
    (fun function1 => substr function1 0 (Str.find "("%char function1)).

(** The same extraction as the specification words it: drop everything
    through the first space (nothing when there is no space), then cut at
    the first opening parenthesis. *)
Fixpoint after_first_space (s : string) : option string :=
  match s with
  | "" => None
  | String c r => if Ascii.eqb c " " then Some r else after_first_space r
  end.

Fixpoint before_first_paren (s : string) : string :=
  match s with
  | "" => ""
  | String c r => if Ascii.eqb c "(" then "" else String c (before_first_paren r)
  end.

Definition extract_function_name (signature : string) : string :=
  before_first_paren
    (match after_first_space signature with
     | Some r => r
     | None => signature
     end).

(* ================================================================== *)
(** * [std::vformat]

    The standard library's formatter is not part of the repository.  The
    member functions below take it as a parameter, together with the
    formatter of [std::string]; an argument is what [std::basic_format_arg]
    holds, the value behind its own formatter: a function from the
    format-spec of a field to the text, [None] for a spec the type rejects.

    [std_vformat] is a model of the replacement-field scanner: literal text,
    the escapes [{{] and [}}], and the fields [{}], [{N}], [{:spec}],
    [{N:spec}], whose spec runs to the first closing brace (a field nested
    in a spec for a dynamic width or precision is outside the model). *)
(* ================================================================== *)

Record format_arg : Type := mkArg {
  arg_format : string -> option string
}.

Definition make_format_args (string_formatter : string -> string -> option string)
    (values : list string) : list format_arg :=
  map (fun value => mkArg (fun spec => string_formatter spec value)) values.

Module Fmt.

Inductive segment : Type :=
  | Text (c : ascii)
  | Field (arg_id : option nat) (spec : string).

Inductive scan_state : Type :=
  | InText
  | SeenOpen
  | SeenClose
  | InField (body : string).

Definition digit_of (c : ascii) : option nat :=
  let n := nat_of_ascii c in
  if ((48 <=? n) && (n <=? 57))%nat then Some (n - 48)%nat else None.

Fixpoint parse_digits (s : string) (acc : nat) : option nat :=
  match s with
  | "" => Some acc
  | String c r =>
    match digit_of c with
    | Some d => parse_digits r (10 * acc + d)%nat
    | None => None
    end
  end.

(** arg-id: [0], or a positive integer without a leading zero. *)
Definition parse_arg_id (s : string) : option nat :=
  match s with
  | "" => None
  | String c r =>
    if Ascii.eqb c "0"
    then (if Str.sv_empty r then Some O else None)
    else parse_digits s 0
  end.

Fixpoint split_colon (s : string) : string * option string :=
  match s with
  | "" => ("", None)
  | String c r =>
    if Ascii.eqb c ":" then ("", Some r)
    else let (a, b) := split_colon r in (String c a, b)
  end.

Definition parse_field (body : string) : option segment :=
  let (id, spec) := split_colon body in
  let spec := match spec with Some sp => sp | None => "" end in
  if Str.sv_empty id then Some (Field None spec)
  else option_map (fun n => Field (Some n) spec) (parse_arg_id id).

Definition cons_seg (x : segment) (r : option (list segment))
  : option (list segment) := option_map (cons x) r.

(** The scanner: [None] for an unmatched brace or a malformed field. *)
Fixpoint scan (st : scan_state) (fmt : string) : option (list segment) :=
  match fmt with
  | "" => match st with InText => Some [] | _ => None end
  | String c r =>
    match st with
    | InText =>
      if Ascii.eqb c "{" then scan SeenOpen r
      else if Ascii.eqb c "}" then scan SeenClose r
      else cons_seg (Text c) (scan InText r)
    | SeenOpen =>
      if Ascii.eqb c "{" then cons_seg (Text "{") (scan InText r)
      else if Ascii.eqb c "}" then cons_seg (Field None "") (scan InText r)
      else scan (InField (String c "")) r
    | SeenClose =>
      if Ascii.eqb c "}" then cons_seg (Text "}") (scan InText r)
      else None
    | InField body =>
      if Ascii.eqb c "}" then
        match parse_field body with
        | Some f => cons_seg f (scan InText r)
        | None => None
        end
      else scan (InField (body ++ String c "")) r
    end
  end.

(** Automatic and manual indexing do not mix. *)
Inductive indexing : Type := Unknown | Manual | Auto.

Fixpoint emit (segs : list segment) (args : list format_arg)
    (mode : indexing) (next : nat) : option string :=
  match segs with
  | [] => Some ""
  | Text c :: r => option_map (String c) (emit r args mode next)
  | Field None spec :: r =>
    match mode with
    | Manual => None
    | _ =>
      match nth_error args next with
      | None => None
      | Some a =>
        match arg_format a spec with
        | None => None
        | Some text =>
          option_map (append text) (emit r args Auto (S next))
        end
      end
    end
  | Field (Some n) spec :: r =>
    match mode with
    | Auto => None
    | _ =>
      match nth_error args n with
      | None => None
      | Some a =>
        match arg_format a spec with
        | None => None
        | Some text => option_map (append text) (emit r args Manual next)
        end
      end
    end
  end.

(** The replacement fields of a template, in order. *)
Definition fields_of (segs : list segment) : list (option nat * string) :=
  flat_map (fun sg => match sg with
                      | Text _ => []
                      | Field id spec => [(id, spec)]
                      end) segs.

Definition fields (fmt : string) : list (option nat * string) :=
  match scan InText fmt with
  | None => []
  | Some segs => fields_of segs
  end.

(** A template and an argument list do not match when a field names an
    argument that was not passed (by its index, or by its position among
    the automatic fields), or when the argument it names rejects the
    field's format-spec. *)
Inductive mismatch (fmt : string) (args : list format_arg) : Prop :=
  | missing_indexed (n : nat) (spec : string) :
      In (Some n, spec) (fields fmt) ->
      (List.length args <= n)%nat ->
      mismatch fmt args
  | missing_automatic (before after : list (option nat * string))
      (spec : string) :
      fields fmt = (before ++ (None, spec) :: after)%list ->
      (List.length args <= List.length before)%nat ->
      mismatch fmt args
  | rejected_indexed (n : nat) (spec : string) (a : format_arg) :
      In (Some n, spec) (fields fmt) ->
      nth_error args n = Some a ->
      arg_format a spec = None ->
      mismatch fmt args
  | rejected_automatic (before after : list (option nat * string))
      (spec : string) (a : format_arg) :
      fields fmt = (before ++ (None, spec) :: after)%list ->
      nth_error args (List.length before) = Some a ->
      arg_format a spec = None ->
      mismatch fmt args.

End Fmt.

Definition std_vformat (fmt : string) (args : list format_arg)
  : result string :=
  match Fmt.scan Fmt.InText fmt with
  | None => Throw format_error
  | Some segs =>
    match Fmt.emit segs args Fmt.Unknown 0 with
    | None => Throw format_error
    | Some text => Ok text
    end
  end.

(* ================================================================== *)
(** * The member functions of [Logger] *)
(* ================================================================== *)

Definition is_stdin_available : M bool :=
  w <- world ;; ret (w_stdin_tty w).

(** [Logger::get_time]. *)
Definition get_time : M string :=
  l <- this ;;
  w <- world ;;
  match format_time (w_clock w) (m_time_format l) with
  | Some text => ret text
  | None => lift OutOfFuel
  end.

(** [Logger::print_log]. *)
Definition print_log (p_msg : string) (p_err : bool) : M unit :=
  modify_world (if p_err then cerr_put p_msg else clog_put p_msg).

Definition ask_prompt : string :=
  "An error has occured, do you want to continue? [y/N] ".
Definition ask_guidance : string := "Please enter y or n." ++ Str.NL.

(** [line.at(0)]. *)
Definition at0 (s : string) : result ascii :=
  match String.get 0 s with
  | Some c => Ok c
  | None => Throw out_of_range
  end.

(** The [while (true)] loop of [Logger::ask_continue]; [line] is declared
    outside the loop and lives across its turns. *)
Fixpoint ask_continue_loop (fuel : nat) (line : string) : M bool :=
  match fuel with
  | O => lift OutOfFuel
  | S fuel' =>
    modify_world (cerr_put ask_prompt) ;;;
    w <- world ;;
    let (cin', line') := getline (w_cin w) line in
    modify_world (with_cin cin') ;;;
    if Str.sv_empty line' then ret false
    else
      c <- lift (at0 line') ;;
      let answ := Str.tolower c in
      if Ascii.eqb answ "y" then ret true
      else if Ascii.eqb answ "n" then ret false
      else
        modify_world (cerr_put ask_guidance) ;;;
        ask_continue_loop fuel' line'
  end.

(** [Logger::ask_continue]. *)
Definition ask_continue (fuel : nat) : M bool :=
  modify_world count_ask ;;;
  available <- is_stdin_available ;;
  if negb available then ret false
  else ask_continue_loop fuel "".

(** [m_LOG_LABELS[T_Level]]. *)
Definition label_at (T_Level : LogLevel) : result (string * string) :=
  match nth_error m_LOG_LABELS (Z.to_nat (level_value T_Level)) with
  | Some labels => Ok labels
  | None => OutOfBounds
  end.

Section WithFormatter.

Variable vformat : string -> list format_arg -> result string.
Variable string_formatter : string -> string -> option string.

(** [Logger::format]. *)
Definition format (p_fmt : string) (p_args : list string) : M string :=
  lift (vformat p_fmt (make_format_args string_formatter p_args)).

(** Lines 106-123 of [Logger::log]: everything from the declarations to
    the finished line [full]. *)
Definition log_line (T_Level : LogLevel) (p_fmt : FormatString)
    (p_args : list format_arg) : M string :=
  l <- this ;;
  time <- get_time ;;
  let file := file_name (source p_fmt) in
  let function := function_name (source p_fmt) in
  let line := Str.to_string (Z.of_N (line (source p_fmt))) in
  labels <- lift (label_at T_Level) ;;
  let log_level := if m_coloured l then fst labels else snd labels in
  msg <- lift (vformat (fmt p_fmt) p_args) ;;
  function <- lift (bare_function_name function) ;;
  let log_format :=
    if Str.sv_empty (m_log_format l)
    then (if m_coloured l then fst m_LOG_FORMATS else snd m_LOG_FORMATS)
    else m_log_format l in
  format log_format [time; log_level; function; file; line; msg].

(** [Logger::log<T_Level>]. *)
Definition log (T_Level : LogLevel) (p_fmt : FormatString)
    (p_args : list format_arg) (fuel : nat) : M unit :=
  l <- this ;;
  if level_lt T_Level (m_threshold_level l) then ret tt
  else
    full <- log_line T_Level p_fmt p_args ;;
    print_log full (level_ge T_Level WARN) ;;;
    if level_eq T_Level ERROR && m_abort_on_err l then
      continue <- ask_continue fuel ;;
      if negb continue then std_abort else ret tt
    else ret tt.

End WithFormatter.

(* ================================================================== *)
(** * Names for what the statements below talk about *)
(* ================================================================== *)

(** The three parts of what a member function leaves behind. *)
Definition outcome {A} (x : result A * (Logger * World)) : result A := fst x.
Definition final_logger {A} (x : result A * (Logger * World)) : Logger :=
  fst (snd x).
Definition final_world {A} (x : result A * (Logger * World)) : World :=
  snd (snd x).

(** The template [log] hands to [format]: the logger's own, or the built-in
    one for its colour setting when its own is empty. *)
Definition effective_log_format (l : Logger) : string :=
  if Str.sv_empty (m_log_format l)
  then (if m_coloured l then fst m_LOG_FORMATS else snd m_LOG_FORMATS)
  else m_log_format l.

(** The six fields [log] hands to [format], given the label pair, the bare
    function name and the rendered user message. *)
Definition log_fields (l : Logger) (w : World) (p_fmt : FormatString)
    (labels : string * string) (function msg : string) : list string :=
  [ render (w_clock w) (m_time_format l);
    (if m_coloured l then fst labels else snd labels);
    function;
    file_name (source p_fmt);
    Str.to_string (Z.of_N (line (source p_fmt)));
    msg ].

(** What remains of [log] once the line is finished: print, then ask
    when the level is ERROR and abort-on-error is set. *)
Definition print_and_escalate (T_Level : LogLevel) (fuel : nat)
    (full : string) (l : Logger) (w : World)
  : result unit * (Logger * World) :=
  let printed :=
      (l, (if level_ge T_Level WARN then cerr_put full else clog_put full) w)
  in
  if level_eq T_Level ERROR && m_abort_on_err l then
    match ask_continue fuel printed with
    | (Ok continue, s) => if negb continue then (Abort, s) else (Ok tt, s)
    | (Throw e, s) => (Throw e, s)
    | (Abort, s) => (Abort, s)
    | (OutOfBounds, s) => (OutOfBounds, s)
    | (OutOfFuel, s) => (OutOfFuel, s)
    end
  else (Ok tt, printed).

(** Two loggers that agree on everything but the ask-continue-on-error
    flag. *)
Definition differ_only_in_ask_continue (l1 l2 : Logger) : Prop :=
  m_threshold_level l1 = m_threshold_level l2
  /\ m_time_format l1 = m_time_format l2
  /\ m_log_format l1 = m_log_format l2
  /\ m_coloured l1 = m_coloured l2
  /\ m_abort_on_err l1 = m_abort_on_err l2.

(** An answer is read off the first character of the line, whatever its
    case. *)
Definition affirmative (c : ascii) : bool := Ascii.eqb (Str.tolower c) "y".
Definition negative (c : ascii) : bool := Ascii.eqb (Str.tolower c) "n".

(** A line the prompt refuses: not empty, no answer, and no newline in it. *)
Definition refused (answer : string) : Prop :=
  split_line answer = None
  /\ exists c r, answer = String c r
                 /\ affirmative c = false /\ negative c = false.

(** The input made of complete lines, each with its newline. *)
Fixpoint complete_lines (answers : list string) : string :=
  match answers with
  | [] => ""
  | answer :: more => answer ++ Str.NL ++ complete_lines more
  end.


(* ================================================================== *)
(** * Sample inputs *)
(* ================================================================== *)

Definition t_13_05_09_042 : TimePoint := mkTime 126 9 30 13 5 9 42.

(** Formatters for the samples: the default presentation of a string (empty
    spec or [s]) and of an integer (empty spec or [d]). *)
Definition plain_text (spec value : string) : option string :=
  if String.eqb spec "" || String.eqb spec "s" then Some value else None.

Definition arg_string (value : string) : format_arg :=
  mkArg (fun spec => plain_text spec value).

Definition arg_int (value : Z) : format_arg :=
  mkArg (fun spec =>
           if String.eqb spec "" || String.eqb spec "d"
           then Some (Str.to_string value) else None).

Definition cin_of (input : string) : istream := mkIs input false false.

Definition world_of (tty : bool) (input : string) : World :=
  mkWorld "" "" (cin_of input) tty t_13_05_09_042 0.

Definition plain_logger : Logger := set_coloured_log false (Logger_new DEBUG).

Definition here (text : string) : FormatString :=
  mkFormatString text (mkLoc "test.cc" "int32_t main()" 9).

(* ================================================================== *)
(** * Timestamps: what a format leaves of the clock *)
(* ================================================================== *)

(** A format without a percent sign. *)
Fixpoint percent_free (s : string) : bool :=
  match s with
  | "" => true
  | String c r => negb (Ascii.eqb c "%") && percent_free r
  end.



(* ================================================================== *)
(** * The prompt: lines that decide and what is written while asking *)
(* ================================================================== *)

(** A line that ends the prompt: the empty line, or one whose first
    character is y, Y, n or N; and the answer it gives. *)
Definition decisive (answer : string) : Prop :=
  split_line answer = None
  /\ match answer with
     | "" => True
     | String c _ => affirmative c || negative c = true
     end.

Definition answer_of (answer : string) : bool :=
  match answer with
  | "" => false
  | String c _ => affirmative c
  end.

(** What [ask_continue] has written to [std::cerr] when it asks for the
    [n]+1st time: [n] prompts, each followed by the guidance, and a prompt. *)
Fixpoint asked (n : nat) : string :=
  match n with
  | O => ask_prompt
  | S k => ask_prompt ++ ask_guidance ++ asked k
  end.

(** The environment after [ask_continue] has written [text] to [std::cerr]
    and left standard input as [i]. *)
Definition after_asking (text : string) (i : istream) (w : World) : World :=
  mkWorld (w_cerr w ++ text) (w_clog w) i (w_stdin_tty w) (w_clock w)
          (S (w_ask_calls w)).

(* ================================================================== *)
(** * Colour: escape sequences and the text under them *)
(* ================================================================== *)

(** Without the escape character. *)
Fixpoint escape_free (s : string) : bool :=
  match s with
  | "" => true
  | String c r => negb (Ascii.eqb c (ascii_of_nat 27)) && escape_free r
  end.

(** The text with its colour sequences taken out: from the escape character
    through the next [m]. *)
Fixpoint strip_colour_from (in_sequence : bool) (s : string) : string :=
  match s with
  | "" => ""
  | String c r =>
    if in_sequence then
      strip_colour_from (negb (Ascii.eqb c "m")) r
    else if Ascii.eqb c (ascii_of_nat 27) then strip_colour_from true r
    else String c (strip_colour_from false r)
  end.

Definition strip_colour (s : string) : string := strip_colour_from false s.

(** Without braces. *)
Fixpoint brace_free (s : string) : bool :=
  match s with
  | "" => true
  | String c r =>
    negb (Ascii.eqb c "{") && negb (Ascii.eqb c "}") && brace_free r
  end.

(** The line of the built-in plain template, field by field. *)
Definition plain_line (time log_level function file line msg : string)
  : string :=
  "[" ++ time ++ " " ++ log_level ++ " at " ++ function ++ "( "
      ++ file ++ ":" ++ line ++ " )]: " ++ msg ++ Str.NL.

(** The line of the built-in coloured template, field by field. *)
Definition coloured_line (time log_level function file line msg : string)
  : string :=
  "[" ++ time ++ " " ++ log_level ++ " at "
      ++ Str.ESC ++ "[1m" ++ function ++ Str.ESC ++ "[0m( "
      ++ Str.ESC ++ "[1;30m" ++ file ++ ":" ++ line ++ Str.ESC ++ "[0;0m )]: "
      ++ Str.ESC ++ "[1m" ++ msg ++ Str.ESC ++ "[0m" ++ Str.NL.

(** The name of a level as the plain labels spell it. *)
Definition level_name (T_Level : LogLevel) : string :=
  match T_Level with
  | DEBUG => "debug"
  | INFO => "info"
  | WARN => "warn"
  | ERROR => "error"
  | __LOG_LEVEL_AMOUNT => ""
  end.

(** Without the character [c]. *)
Fixpoint lacks (c : ascii) (s : string) : bool :=
  match s with
  | "" => true
  | String d r => negb (Ascii.eqb d c) && lacks c r
  end.

(** The built-in template for a colour setting. *)
Definition built_in_format (coloured : bool) : string :=
  if coloured then fst m_LOG_FORMATS else snd m_LOG_FORMATS.

(* ================================================================== *)
(** * The test program (test/test.cc) *)
(* ================================================================== *)

(** The clock moves on between the calls: [at_time t w] is the environment
    [w] at the moment the clock shows [t]. *)
Definition at_time (t : TimePoint) (w : World) : World :=
  mkWorld (w_cerr w) (w_clog w) (w_cin w) (w_stdin_tty w) t (w_ask_calls w).

(** A statement [object.log<...>(...)] of [main]: the call runs on the
    object; when it returns, [main] goes on with the object and the
    environment it leaves; an exception or an abort ends [main]. *)
Definition statement (object : Logger) (call : M unit) (w : World)
    (rest : Logger -> World -> result Z * World) : result Z * World :=
  match call (object, w) with
  | (Ok _, (object', w')) => rest object' w'
  | (Throw e, (_, w')) => (Throw e, w')
  | (Abort, (_, w')) => (Abort, w')
  | (OutOfBounds, (_, w')) => (OutOfBounds, w')
  | (OutOfFuel, (_, w')) => (OutOfFuel, w')
  end.

Section TestProgram.

Variable string_formatter : string -> string -> option string.

(** The file name and the signature of [main] as the compiler spells them
    in [std::source_location], and what the clock shows when the call on a
    given line of the file reads it. *)
Variable file signature : string.
Variable readings : N -> TimePoint.

Definition line_of_main (n : N) (text : string) : FormatString :=
  mkFormatString text (mkLoc file signature n).

Definition log_on_line (T_Level : LogLevel) (n : N) (text : string)
    (p_args : list format_arg) (fuel : nat) (object : Logger) (w : World)
    (rest : Logger -> World -> result Z * World) : result Z * World :=
  statement object
    (log std_vformat string_formatter T_Level (line_of_main n text)
         p_args fuel)
    (at_time (readings n) w) rest.

Definition main (fuel : nat) (w : World) : result Z * World :=
  let logger := Logger_new DEBUG in
  log_on_line DEBUG 9 "Test debug" [] fuel logger w (fun logger w =>
  log_on_line INFO 10 "Test info" [] fuel logger w (fun logger w =>
  log_on_line WARN 11 "Test warn" [] fuel logger w (fun logger w =>
  let logger := set_time_format "%H:%M:%S" logger in
  log_on_line INFO 14 "Test time" [] fuel logger w (fun logger w =>
  let logger := set_time_format_no_argument logger in
  let logger :=
      set_log_format ("[{0} {1} {2} {3}:{4}] >> {5}" ++ Str.NL) logger in
  log_on_line WARN 18 "Test log format {}" [arg_int 1] fuel logger w
    (fun logger w =>
  let logger := set_log_format_clear logger in
  let logger := abort_on_error false logger in
  log_on_line ERROR 22 "Test ERROR" [] fuel logger w (fun logger w =>
  let other := Logger_new INFO in
  log_on_line DEBUG 26 "wont print" [] fuel other w (fun other w =>
  let other := logger in
  log_on_line DEBUG 30 "TEST LOGGER" [] fuel logger w (fun logger w =>
  log_on_line DEBUG 31 "TEST OTHER" [] fuel other w (fun other w =>
  (Ok 0, w)))))))))).

(** What [main] writes.  Every line carries the coloured label of its level
    and the bare name of [main]; the line of the call on line 18 follows the
    format set on line 17. *)
Definition coloured_label (T_Level : LogLevel) : string :=
  fst (nth (Z.to_nat (level_value T_Level)) m_LOG_LABELS ("", "")).

Definition main_line (T_Level : LogLevel) (time_format : string) (n : N)
    (msg : string) : string :=
  coloured_line (render (readings n) time_format) (coloured_label T_Level)
                (extract_function_name signature) file
                (Str.to_string (Z.of_N n)) msg.

Definition main_clog : string :=
  main_line DEBUG "%M:%S.%MS" 9 "Test debug"
  ++ main_line INFO "%M:%S.%MS" 10 "Test info"
  ++ main_line INFO "%H:%M:%S" 14 "Test time"
  ++ main_line DEBUG "%MS.%S:%M" 30 "TEST LOGGER"
  ++ main_line DEBUG "%MS.%S:%M" 31 "TEST OTHER".

Definition main_cerr : string :=
  main_line WARN "%M:%S.%MS" 11 "Test warn"
  ++ ("[" ++ render (readings 18) "%MS.%S:%M" ++ " " ++ coloured_label WARN
          ++ " " ++ extract_function_name signature ++ " " ++ file ++ ":18"
          ++ "] >> Test log format 1" ++ Str.NL)
  ++ main_line ERROR "%MS.%S:%M" 22 "Test ERROR".

End TestProgram.

(* ================================================================== *)
(** * Strings: basic facts *)
(* ================================================================== *)

Lemma substring_whole (s : string) : substring 0 (String.length s) s = s.
Proof.
  induction s as [|c s IH]; simpl; [reflexivity | now rewrite IH].
Qed.

Lemma substring_nothing (s : string) : substring 0 0 s = "".
Proof. now destruct s. Qed.

Lemma append_assoc' (a b c : string) : (a ++ b) ++ c = a ++ b ++ c.
Proof.
  induction a as [|x a IH]; simpl; [reflexivity | now rewrite IH].
Qed.

Lemma append_empty_r (a : string) : a ++ "" = a.
Proof.
  induction a as [|x a IH]; simpl; [reflexivity | now rewrite IH].
Qed.

Lemma two_digits_zero_pad (v : Z) : Os.two_digits v = zero_pad 2 v.
Proof. reflexivity. Qed.

(* ================================================================== *)
(** * [format_time]: one turn of the loop *)
(* ================================================================== *)

Ltac split_ascii_eqb :=
  repeat match goal with
  | |- context [Ascii.eqb ?a ?b] =>
    let E := fresh "E" in
    destruct (Ascii.eqb a b) eqn:E;
    [apply Ascii.eqb_eq in E; subst;
     try match goal with
         | H : Ascii.eqb ?x ?x = false |- _ =>
           rewrite Ascii.eqb_refl in H; discriminate H
         end
    | ]; try discriminate; simpl
  end.

Ltac same_buffer :=
  let W := fresh "W" in
  intros W;
  unfold Os.put_int, Os.put_char, Os.put, Os.put_time_Ymd, Os.setfill,
         Os.setw;
  cbn [os_buf os_width os_fill];
  rewrite ?W;
  repeat (progress (unfold date_YYYY_MM_DD, zero_pad, Os.two_digits;
                    cbn -[Str.fill Str.to_string String.length Nat.sub]));
  repeat match goal with
         | H : Ascii.eqb _ _ = false |- _ => rewrite H
         end;
  split_ascii_eqb;
  repeat (progress (unfold date_YYYY_MM_DD, zero_pad, Os.two_digits;
                    cbn -[Str.fill Str.to_string String.length Nat.sub]));
  rewrite ?append_assoc', ?append_empty_r;
  try reflexivity.

(** What one turn does to a non-empty format: it takes one, two or three
    characters off its front, leaves the field width at zero, and appends to
    the buffer what [render] produces for the characters taken. *)
Lemma format_time_step_spec (now : TimePoint) (c : ascii) (r : string)
    (out : ostringstream) :
  exists p_fmt' out',
    format_time_step now (String c r) out = Some (p_fmt', out')
    /\ (String.length (String c r) = 1 + String.length p_fmt'
        \/ String.length (String c r) = 2 + String.length p_fmt'
        \/ String.length (String c r) = 3 + String.length p_fmt')%nat
    /\ os_width out' = O
    /\ (os_width out = O ->
        os_buf out' ++ render now p_fmt'
        = os_buf out ++ render now (String c r)).
Proof.
  unfold format_time_step.
  cbn [String.get].
  destruct (Ascii.eqb c "%") eqn:Ec.
  - apply Ascii.eqb_eq in Ec; subst c.
    destruct r as [|c1 r2]; [|destruct r2 as [|c2 r3]];
      cbn -[render Os.put_int Os.put_char Os.put_time_Ymd];
      rewrite ?substring_nothing, ?Nat.sub_0_r, ?substring_whole;
      cbn -[render Os.put_int Os.put_char Os.put_time_Ymd];
      split_ascii_eqb;
      (eexists; eexists; split; [reflexivity|]);
      (split; [cbn; lia|]); (split; [reflexivity|]);
      same_buffer.
  - cbn -[render Os.put_char].
    rewrite ?Nat.sub_0_r, ?substring_whole.
    eexists; eexists; split; [reflexivity|].
    split; [cbn; lia|]. split; [reflexivity|].
    intros W. cbn. rewrite W, Ec. cbn.
    now rewrite append_assoc'.
Qed.

(** The loop: with a turn for each character it reaches the empty format,
    and the buffer then holds what [render] says. *)
Lemma format_time_loop_spec (now : TimePoint) (fuel : nat) :
  forall (p_fmt : string) (out : ostringstream),
    (String.length p_fmt <= fuel)%nat ->
    exists out',
      format_time_loop fuel now p_fmt out = Some out'
      /\ (os_width out = O ->
          os_buf out' = os_buf out ++ render now p_fmt).
Proof.
  induction fuel as [|fuel IH]; intros p_fmt out Hlen.
  - destruct p_fmt; [|simpl in Hlen; lia].
    exists out. split; [reflexivity|].
    intros _. simpl. now rewrite append_empty_r.
  - destruct p_fmt as [|c r].
    + exists out. split; [reflexivity|].
      intros _. simpl. now rewrite append_empty_r.
    + destruct (format_time_step_spec now c r out)
        as (p' & out1 & Hstep & Hshort & Hw & Hbuf).
      destruct (IH p' out1) as (out' & Hloop & Hout').
      { simpl in Hlen, Hshort. lia. }
      exists out'. split.
      * cbn [format_time_loop Str.sv_empty]. now rewrite Hstep.
      * intros W. rewrite (Hout' Hw). now apply Hbuf.
Qed.

Lemma format_time_render (now : TimePoint) (p_fmt : string) :
  format_time now p_fmt = Some (render now p_fmt).
Proof.
  unfold format_time.
  destruct (format_time_loop_spec now (String.length p_fmt) p_fmt Os.empty
              (Nat.le_refl _)) as (out' & Hloop & Hbuf).
  rewrite Hloop. simpl. unfold Os.str.
  now rewrite (Hbuf eq_refl).
Qed.

Lemma render_literal (now : TimePoint) (c : ascii) (r : string) :
  starts_with_token (String c r) = false ->
  render now (String c r) = String c (render now r).
Proof.
  intros H. cbn [render].
  destruct (Ascii.eqb c "%") eqn:Ec; [|reflexivity].
  destruct r as [|c1 r2]; [reflexivity|].
  cbn in H. rewrite Ec in H. cbn in H.
  destruct (Ascii.eqb c1 "M"); [discriminate|].
  destruct (Ascii.eqb c1 "S"); [discriminate|].
  destruct (Ascii.eqb c1 "H"); [discriminate|].
  destruct (Ascii.eqb c1 "D"); [discriminate|].
  reflexivity.
Qed.

Lemma render_minutes (now : TimePoint) (r : string) :
  starts_with_S r = false ->
  render now ("%M" ++ r) = zero_pad 2 (tm_min now) ++ render now r.
Proof.
  intros H. destruct r as [|c r]; [reflexivity|].
  cbn in H. cbn -[zero_pad]. now rewrite H.
Qed.

(** Padding does what its name says on the values a clock can show. *)
Lemma zero_pad_length (width : nat) (v : Z) :
  (width <= String.length (zero_pad width v))%nat.
Proof.
  unfold zero_pad.
  assert (Hfill : forall n c, String.length (Str.fill n c) = n)
    by (induction n; intros; simpl; auto).
  assert (Happ : forall a b,
             String.length (a ++ b) = (String.length a + String.length b)%nat)
    by (induction a; intros; simpl; auto).
  rewrite Happ, Hfill. lia.
Qed.

Lemma zero_pad_exact (width : nat) (bound : nat) (v : Z) :
  forallb (fun n => Nat.eqb (String.length (zero_pad width (Z.of_nat n))) width)
          (seq 0 bound) = true ->
  0 <= v < Z.of_nat bound ->
  String.length (zero_pad width v) = width.
Proof.
  intros Hall Hv.
  rewrite forallb_forall in Hall.
  specialize (Hall (Z.to_nat v)).
  rewrite Z2Nat.id in Hall by lia.
  apply Nat.eqb_eq, Hall, in_seq. lia.
Qed.

Lemma zero_pad_3_digits (v : Z) :
  0 <= v < 1000 -> String.length (zero_pad 3 v) = 3%nat.
Proof. apply (zero_pad_exact 3 1000). vm_compute. reflexivity. Qed.

Lemma zero_pad_2_digits (v : Z) :
  0 <= v < 100 -> String.length (zero_pad 2 v) = 2%nat.
Proof. apply (zero_pad_exact 2 100). vm_compute. reflexivity. Qed.

(** C2.  For every clock value and every format string, [format_time]
    returns a string (it never fails), scanning from the left: the empty
    format gives the empty string; [%MS] gives the milliseconds padded with
    zeros to three digits; [%S], [%M] (when no [S] follows) and [%H] give
    the seconds, minutes and hours padded to two; [%D] gives the date as
    YYYY-MM-DD; any other character, a [%] that starts no token included,
    is copied.  At 13:05:09.042 the format [%H:%M:%S.%MS] gives
    [13:05:09.042], and [literal] gives [literal] at any time.  Padding to
    three (two) digits gives exactly three (two) characters for a value
    below 1000 (100). *)
Theorem format_time_scans_tokens (now : TimePoint) :
  (forall p_fmt, format_time now p_fmt = Some (render now p_fmt))
  /\ format_time now "" = Some ""
  /\ (forall r, format_time now ("%MS" ++ r)
                = option_map (append (zero_pad 3 (ms now)))
                             (format_time now r))
  /\ (forall r, format_time now ("%S" ++ r)
                = option_map (append (zero_pad 2 (tm_sec now)))
                             (format_time now r))
  /\ (forall r, starts_with_S r = false ->
                format_time now ("%M" ++ r)
                = option_map (append (zero_pad 2 (tm_min now)))
                             (format_time now r))
  /\ (forall r, format_time now ("%H" ++ r)
                = option_map (append (zero_pad 2 (tm_hour now)))
                             (format_time now r))
  /\ (forall r, format_time now ("%D" ++ r)
                = option_map (append (date_YYYY_MM_DD now))
                             (format_time now r))
  /\ (forall c r, starts_with_token (String c r) = false ->
                  format_time now (String c r)
                  = option_map (String c) (format_time now r))
  /\ format_time t_13_05_09_042 "%H:%M:%S.%MS" = Some "13:05:09.042"
  /\ format_time t_13_05_09_042 "%D" = Some "2026-10-30"
  /\ format_time now "literal" = Some "literal"
  /\ (forall v, 0 <= v < 1000 -> String.length (zero_pad 3 v) = 3%nat)
  /\ (forall v, 0 <= v < 100 -> String.length (zero_pad 2 v) = 2%nat).
Proof.
  repeat split; intros;
    rewrite ?format_time_render; cbn [option_map]; try reflexivity.
  - now rewrite render_minutes.
  - now rewrite render_literal.
  - now apply zero_pad_3_digits.
  - now apply zero_pad_2_digits.
Qed.

Lemma format_time_scans_tokens_witness :
  format_time t_13_05_09_042 "%M:%S"
  = option_map (append (zero_pad 2 5)) (format_time t_13_05_09_042 ":%S")
  /\ format_time t_13_05_09_042 "%%H"
     = option_map (String "%") (format_time t_13_05_09_042 "%H").
Proof.
  pose proof (format_time_scans_tokens t_13_05_09_042)
    as (_ & _ & _ & _ & Hmin & _ & _ & Hlit & _).
  split.
  - apply (Hmin ":%S"). reflexivity.
  - apply (Hlit "%"%char "%H"). reflexivity.
Defined.

(** C10.  The scanner terminates on every format string: a turn of the
    loop on a non-empty format takes one, two or three characters off it, so
    one turn per character is enough for the loop to reach the empty format,
    and [format_time] returns a string for every format. *)
Theorem format_time_terminates (now : TimePoint) (p_fmt : string) :
  (forall out, p_fmt <> "" ->
     exists p_fmt' out',
       format_time_step now p_fmt out = Some (p_fmt', out')
       /\ (String.length p_fmt = 1 + String.length p_fmt'
           \/ String.length p_fmt = 2 + String.length p_fmt'
           \/ String.length p_fmt = 3 + String.length p_fmt')%nat)
  /\ (forall fuel out, (String.length p_fmt <= fuel)%nat ->
        exists out', format_time_loop fuel now p_fmt out = Some out')
  /\ (exists text, format_time now p_fmt = Some text).
Proof.
  split; [|split].
  - intros out Hne. destruct p_fmt as [|c r]; [congruence|].
    destruct (format_time_step_spec now c r out)
      as (p' & out' & Hstep & Hshort & _).
    now exists p', out'.
  - intros fuel out Hlen.
    destruct (format_time_loop_spec now fuel p_fmt out Hlen)
      as (out' & Hloop & _).
    now exists out'.
  - exists (render now p_fmt). apply format_time_render.
Qed.

Lemma format_time_terminates_witness :
  (exists p_fmt' out',
     format_time_step t_13_05_09_042 "%MS." Os.empty = Some (p_fmt', out')
     /\ (4 = 1 + String.length p_fmt' \/ 4 = 2 + String.length p_fmt'
         \/ 4 = 3 + String.length p_fmt')%nat)
  /\ (exists out',
        format_time_loop 4 t_13_05_09_042 "%MS." Os.empty = Some out').
Proof.
  pose proof (format_time_terminates t_13_05_09_042 "%MS.")
    as (Hstep & Hloop & _).
  split.
  - apply (Hstep Os.empty). discriminate.
  - apply (Hloop 4%nat Os.empty). simpl. lia.
Defined.

(* ================================================================== *)
(** * Function-name extraction *)
(* ================================================================== *)

Lemma npos_value : Str.npos = 18446744073709551615%N.
Proof. reflexivity. Qed.

Lemma size_add_npos : Str.size_add Str.npos 1 = 0%N.
Proof. reflexivity. Qed.

Lemma size_add_small (k : N) :
  (k < Str.npos)%N -> Str.size_add k 1 = (k + 1)%N.
Proof.
  intros H. unfold Str.size_add. rewrite npos_value in H.
  apply N.mod_small. unfold Str.size_max. simpl. lia.
Qed.

Lemma substring_skip (c : ascii) (s : string) (n m : nat) :
  substring (S n) m (String c s) = substring n m s.
Proof. reflexivity. Qed.

(** [find_from]: [npos] when the character does not occur, otherwise the
    offset plus the number of characters before the first occurrence. *)
Lemma find_from_space (s : string) :
  forall i : N,
    (i + Str.size s < Str.npos)%N ->
    match after_first_space s with
    | None => Str.find_from " " s i = Str.npos
    | Some r =>
      exists k : nat,
        Str.find_from " " s i = (i + N.of_nat k)%N
        /\ (k < String.length s)%nat
        /\ substring (S k) (String.length s - S k) s = r
    end.
Proof.
  unfold Str.size.
  induction s as [|c s IH]; intros i Hi; simpl; [reflexivity|].
  destruct (Ascii.eqb c " ") eqn:Ec.
  - exists O. repeat split; [f_equal; lia | lia |].
    rewrite Nat.sub_0_r. apply substring_whole.
  - specialize (IH (N.succ i)).
    simpl String.length in Hi.
    destruct (after_first_space s) as [r|].
    + destruct IH as (k & Hk & Hlt & Hsub); [lia|].
      exists (S k). repeat split; [rewrite Hk; lia | lia | exact Hsub].
    + apply IH. lia.
Qed.

Lemma find_from_paren (s : string) :
  forall i : N,
    (i + Str.size s < Str.npos)%N ->
    (Str.find_from "(" s i = Str.npos /\ before_first_paren s = s)
    \/ (exists k : nat,
          Str.find_from "(" s i = (i + N.of_nat k)%N
          /\ (k < String.length s)%nat
          /\ substring 0 k s = before_first_paren s).
Proof.
  unfold Str.size.
  induction s as [|c s IH]; intros i Hi; simpl; [now left|].
  destruct (Ascii.eqb c "(") eqn:Ec.
  - right. exists O. repeat split; [f_equal; lia | lia].
  - specialize (IH (N.succ i)).
    simpl String.length in Hi.
    destruct IH as [[Hn Hb] | (k & Hk & Hlt & Hsub)]; [lia | |].
    + left. now rewrite Hn, Hb.
    + right. exists (S k).
      repeat split; [rewrite Hk; lia | lia | simpl; now rewrite Hsub].
Qed.

Lemma after_first_space_shorter (s r : string) :
  after_first_space s = Some r -> (String.length r < String.length s)%nat.
Proof.
  revert r. induction s as [|c s IH]; intros r; simpl; [discriminate|].
  destruct (Ascii.eqb c " ").
  - intros [= <-]. lia.
  - intros H. specialize (IH r H). lia.
Qed.

Lemma substr_to_paren (s : string) :
  (Str.size s < Str.npos)%N ->
  substr s 0 (Str.find "(" s) = Ok (before_first_paren s).
Proof.
  intros Hs. unfold substr, Str.find.
  replace (Str.size s <? 0)%N with false
    by (symmetry; apply N.ltb_ge; lia).
  f_equal.
  destruct (find_from_paren s 0) as [[Hn Hb] | (k & Hk & Hlt & Hsub)];
    [simpl; exact Hs | |].
  - rewrite Hn, Hb. unfold Str.size in *. rewrite npos_value in *.
    replace (N.to_nat (N.min _ _)) with (String.length s) by lia.
    apply substring_whole.
  - rewrite Hk, <- Hsub. unfold Str.size in *. rewrite npos_value in *.
    now replace (N.to_nat (N.min _ _)) with k by lia.
Qed.

Lemma bare_function_name_spec (signature : string) :
  (Str.size signature < Str.npos)%N ->
  bare_function_name signature = Ok (extract_function_name signature).
Proof.
  intros Hs. unfold bare_function_name, extract_function_name, Str.find.
  unfold result_bind.
  pose proof (find_from_space signature 0 Hs) as Hfind.
  pose proof (after_first_space_shorter signature) as Hshort.
  destruct (after_first_space signature) as [r|].
  - destruct Hfind as (k & Hk & Hlt & Hsub).
    specialize (Hshort r eq_refl).
    unfold Str.size in Hs.
    rewrite Hk, size_add_small by (rewrite npos_value in *; lia).
    unfold substr at 1. unfold Str.size.
    replace (_ <? _)%N with false by (symmetry; apply N.ltb_ge; lia).
    replace (N.to_nat (0 + N.of_nat k + 1)) with (S k) by lia.
    replace (N.to_nat (N.min _ _)) with (String.length signature - S k)%nat
      by (rewrite npos_value in *; lia).
    rewrite Hsub.
    apply substr_to_paren. unfold Str.size. lia.
  - rewrite Hfind, size_add_npos.
    unfold substr at 1. unfold Str.size in *.
    replace (_ <? _)%N with false by (symmetry; apply N.ltb_ge; lia).
    replace (N.to_nat 0) with O by reflexivity.
    replace (N.to_nat (N.min _ _)) with (String.length signature)
      by (rewrite npos_value in *; lia).
    rewrite substring_whole.
    apply substr_to_paren. exact Hs.
Qed.

(** C6.  Function-name extraction keeps what follows the first space (the
    whole signature when it has no space) and cuts that at the first opening
    parenthesis; it never throws.  [int32_t main()] gives [main] and
    [void ns::Class::method(int, float)] gives [ns::Class::method]. *)
Theorem bare_function_name_extracts (signature : string) :
  ((Str.size signature < Str.npos)%N ->
   bare_function_name signature = Ok (extract_function_name signature))
  /\ bare_function_name "int32_t main()" = Ok "main"
  /\ bare_function_name "void ns::Class::method(int, float)"
     = Ok "ns::Class::method".
Proof.
  split; [apply bare_function_name_spec | split; reflexivity].
Qed.

Lemma bare_function_name_extracts_witness :
  bare_function_name "auto main(void) -> int32_t" = Ok "main".
Proof.
  refine (proj1 (bare_function_name_extracts "auto main(void) -> int32_t") _).
  reflexivity.
Defined.

(* ================================================================== *)
(** * Running [log]: frame facts *)
(* ================================================================== *)

Ltac run :=
  unfold outcome, final_logger, final_world, log, log_line, format,
         print_log, ask_continue, is_stdin_available, get_time,
         std_abort, modify_world, world, this, lift, ret, bind in *;
  cbn [fst snd] in *.

Lemma get_time_returns (l : Logger) (w : World) :
  get_time (l, w) = (Ok (render (w_clock w) (m_time_format l)), (l, w)).
Proof.
  unfold get_time, bind, this, world. cbn.
  now rewrite format_time_render.
Qed.

(** [log_line] reads the logger and the clock and writes nothing. *)
Lemma log_line_state vformat string_formatter T_Level p_fmt p_args (s : Logger * World) :
  snd (log_line vformat string_formatter T_Level p_fmt p_args s) = s.
Proof.
  destruct s as [l w].
  unfold log_line, bind at 1, this. cbn [fst snd].
  unfold bind at 1. rewrite get_time_returns.
  unfold bind, lift, format.
  destruct (label_at T_Level); try reflexivity.
  destruct (vformat (fmt p_fmt) p_args); try reflexivity.
  destruct (bare_function_name _); reflexivity.
Qed.

Lemma log_line_run vformat string_formatter T_Level p_fmt p_args (l : Logger) (w : World) :
  log_line vformat string_formatter T_Level p_fmt p_args (l, w)
  = (outcome (log_line vformat string_formatter T_Level p_fmt p_args (l, w)), (l, w)).
Proof.
  rewrite <- (log_line_state vformat string_formatter T_Level p_fmt p_args (l, w)) at 3.
  unfold outcome. now destruct (log_line _ _ _ _ _).
Qed.

Lemma log_line_outcome vformat string_formatter T_Level p_fmt p_args (l : Logger) (w : World) :
  outcome (log_line vformat string_formatter T_Level p_fmt p_args (l, w))
  = result_bind (label_at T_Level) (fun labels =>
    result_bind (vformat (fmt p_fmt) p_args) (fun msg =>
    result_bind (bare_function_name (function_name (source p_fmt)))
      (fun function =>
         vformat (effective_log_format l)
                 (make_format_args string_formatter
                    (log_fields l w p_fmt labels function msg))))).
Proof.
  unfold log_line, outcome, bind at 1, this. cbn [fst snd].
  unfold bind at 1. rewrite get_time_returns.
  unfold bind, lift, format, result_bind.
  destruct (label_at T_Level); try reflexivity.
  destruct (vformat (fmt p_fmt) p_args); try reflexivity.
  destruct (bare_function_name _); reflexivity.
Qed.

(** The prompt loop writes to [std::cerr] and reads [std::cin]; it leaves
    the logger, [std::clog] and the count of prompts entered alone. *)
Lemma ask_continue_loop_frame (fuel : nat) :
  forall (line : string) (l : Logger) (w : World),
    final_logger (ask_continue_loop fuel line (l, w)) = l
    /\ w_clog (final_world (ask_continue_loop fuel line (l, w))) = w_clog w
    /\ w_ask_calls (final_world (ask_continue_loop fuel line (l, w)))
       = w_ask_calls w
    /\ exists tail,
         w_cerr (final_world (ask_continue_loop fuel line (l, w)))
         = w_cerr w ++ tail.
Proof.
  induction fuel as [|fuel IH]; intros line l w.
  - cbn. repeat split; auto. exists "". now rewrite append_empty_r.
  - cbn [ask_continue_loop]. run. cbn [w_cin cerr_put].
    destruct (getline (w_cin w) line) as [cin' line'].
    cbn [fst snd].
    destruct (Str.sv_empty line');
      [cbn; repeat split; auto; now exists ask_prompt|].
    destruct (at0 line') as [c| | | |];
      try (cbn; repeat split; auto; now exists ask_prompt).
    destruct (Ascii.eqb (Str.tolower c) "y");
      [cbn; repeat split; auto; now exists ask_prompt|].
    destruct (Ascii.eqb (Str.tolower c) "n");
      [cbn; repeat split; auto; now exists ask_prompt|].
    cbn [fst snd].
    destruct (IH line' l
                (cerr_put ask_guidance
                   (with_cin cin' (cerr_put ask_prompt w))))
      as (Hl & Hclog & Hcalls & tail & Hcerr).
    repeat split; auto.
    exists (ask_prompt ++ ask_guidance ++ tail).
    rewrite Hcerr. cbn. now rewrite !append_assoc'.
Qed.

Lemma ask_continue_frame (fuel : nat) (l : Logger) (w : World) :
  final_logger (ask_continue fuel (l, w)) = l
  /\ w_clog (final_world (ask_continue fuel (l, w))) = w_clog w
  /\ w_ask_calls (final_world (ask_continue fuel (l, w)))
     = S (w_ask_calls w)
  /\ exists tail,
       w_cerr (final_world (ask_continue fuel (l, w))) = w_cerr w ++ tail.
Proof.
  unfold ask_continue, is_stdin_available, bind, modify_world, world, ret.
  cbn [fst snd].
  destruct (negb (w_stdin_tty (count_ask w))).
  - cbn. repeat split; auto. exists "". now rewrite append_empty_r.
  - apply (ask_continue_loop_frame fuel "" l (count_ask w)).
Qed.

(** The prompt does not look at the logger. *)
Lemma ask_continue_loop_blind (fuel : nat) :
  forall (line : string) (l1 l2 : Logger) (w : World),
    outcome (ask_continue_loop fuel line (l1, w))
    = outcome (ask_continue_loop fuel line (l2, w))
    /\ final_world (ask_continue_loop fuel line (l1, w))
       = final_world (ask_continue_loop fuel line (l2, w)).
Proof.
  induction fuel as [|fuel IH]; intros line l1 l2 w; [now cbn|].
  cbn [ask_continue_loop]. run. cbn [w_cin cerr_put].
  destruct (getline (w_cin w) line) as [cin' line'].
  cbn [fst snd].
  destruct (Str.sv_empty line'); [now cbn|].
  destruct (at0 line') as [c| | | |]; try now cbn.
  destruct (Ascii.eqb (Str.tolower c) "y"); [now cbn|].
  destruct (Ascii.eqb (Str.tolower c) "n"); [now cbn|].
  cbn [fst snd]. apply IH.
Qed.

Lemma ask_continue_blind (fuel : nat) (l1 l2 : Logger) (w : World) :
  outcome (ask_continue fuel (l1, w)) = outcome (ask_continue fuel (l2, w))
  /\ final_world (ask_continue fuel (l1, w))
     = final_world (ask_continue fuel (l2, w)).
Proof.
  unfold ask_continue, is_stdin_available, bind, modify_world, world, ret.
  cbn [fst snd].
  destruct (negb (w_stdin_tty (count_ask w))); [now cbn|].
  apply ask_continue_loop_blind.
Qed.

Lemma log_run vformat string_formatter T_Level p_fmt p_args fuel l w :
  log vformat string_formatter T_Level p_fmt p_args fuel (l, w)
  = if level_lt T_Level (m_threshold_level l) then (Ok tt, (l, w))
    else
      match outcome (log_line vformat string_formatter T_Level p_fmt p_args (l, w)) with
      | Ok full => print_and_escalate T_Level fuel full l w
      | Throw e => (Throw e, (l, w))
      | Abort => (Abort, (l, w))
      | OutOfBounds => (OutOfBounds, (l, w))
      | OutOfFuel => (OutOfFuel, (l, w))
      end.
Proof.
  unfold log. unfold bind at 1, this. cbn [fst snd].
  destruct (level_lt T_Level (m_threshold_level l)); [reflexivity|].
  unfold bind at 1. rewrite log_line_run.
  destruct (outcome _) as [full| | | |]; try reflexivity.
  unfold bind at 1, print_log, modify_world, print_and_escalate.
  cbn [fst snd].
  destruct (level_eq T_Level ERROR && m_abort_on_err l); [|reflexivity].
  unfold bind at 1.
  destruct (ask_continue fuel _) as [[continue| | | |] s]; try reflexivity.
  now destruct continue.
Qed.

(** [log] once the severity gate is passed and the line is finished. *)
Lemma log_after_line vformat string_formatter T_Level p_fmt p_args fuel l w full :
  level_lt T_Level (m_threshold_level l) = false ->
  log_line vformat string_formatter T_Level p_fmt p_args (l, w) = (Ok full, (l, w)) ->
  log vformat string_formatter T_Level p_fmt p_args fuel (l, w)
  = print_and_escalate T_Level fuel full l w.
Proof.
  intros Hgate Hline.
  now rewrite log_run, Hgate, Hline.
Qed.

(** [log] when the line cannot be finished: the outcome of [log_line] is
    the outcome of [log], nothing is printed, the prompt is not entered. *)
Lemma log_without_line vformat string_formatter T_Level p_fmt p_args fuel l w :
  level_lt T_Level (m_threshold_level l) = false ->
  (forall full, outcome (log_line vformat string_formatter T_Level p_fmt p_args (l, w))
                <> Ok full) ->
  final_logger (log vformat string_formatter T_Level p_fmt p_args fuel (l, w)) = l
  /\ final_world (log vformat string_formatter T_Level p_fmt p_args fuel (l, w)) = w.
Proof.
  intros Hgate Hline.
  rewrite log_run, Hgate.
  destruct (outcome _) as [full| | | |] eqn:E; try (now cbn).
  exfalso. exact (Hline full eq_refl).
Qed.

(** C1.  A log call whose severity is below the threshold returns at once:
    the logger and the whole environment (both output streams, standard
    input, the count of prompts entered) are what they were. *)
Theorem log_below_threshold_has_no_effect
    vformat string_formatter T_Level p_fmt p_args fuel (l : Logger) (w : World) :
  level_lt T_Level (m_threshold_level l) = true ->
  log vformat string_formatter T_Level p_fmt p_args fuel (l, w) = (Ok tt, (l, w)).
Proof.
  intros Hbelow.
  unfold log, bind, this, ret. cbn [fst snd].
  now rewrite Hbelow.
Qed.

Lemma log_below_threshold_has_no_effect_witness :
  log std_vformat plain_text DEBUG (here "x") [] 1 (Logger_new WARN, world_of true "y")
  = (Ok tt, (Logger_new WARN, world_of true "y")).
Proof.
  apply (log_below_threshold_has_no_effect
           std_vformat plain_text DEBUG (here "x") [] 1 (Logger_new WARN)
           (world_of true "y")).
  reflexivity.
Defined.

(** C8.  A log call that passes the severity gate and finishes its line
    appends the line to [std::cerr] when the level is WARN or ERROR (only the
    prompt of an ERROR may follow it there), leaving [std::clog] alone, and
    appends it to [std::clog] when the level is DEBUG or INFO, leaving
    [std::cerr] alone. *)
Theorem log_routes_line_by_severity
    vformat string_formatter T_Level p_fmt p_args fuel (l : Logger) (w : World) full :
  level_lt T_Level (m_threshold_level l) = false ->
  log_line vformat string_formatter T_Level p_fmt p_args (l, w) = (Ok full, (l, w)) ->
  (T_Level = WARN \/ T_Level = ERROR ->
     w_clog (final_world (log vformat string_formatter T_Level p_fmt p_args fuel (l, w)))
     = w_clog w
     /\ exists tail,
          w_cerr (final_world (log vformat string_formatter T_Level p_fmt p_args fuel (l, w)))
          = w_cerr w ++ full ++ tail)
  /\ (T_Level = DEBUG \/ T_Level = INFO ->
        w_clog (final_world (log vformat string_formatter T_Level p_fmt p_args fuel (l, w)))
        = w_clog w ++ full
        /\ w_cerr (final_world (log vformat string_formatter T_Level p_fmt p_args fuel (l, w)))
           = w_cerr w).
Proof.
  intros Hgate Hline.
  rewrite (log_after_line _ _ _ _ _ fuel _ _ _ Hgate Hline).
  unfold print_and_escalate.
  split.
  - intros Hlevel.
    assert (Hge : level_ge T_Level WARN = true)
      by (destruct Hlevel; subst; reflexivity).
    rewrite Hge. cbv zeta.
    destruct (level_eq T_Level ERROR && m_abort_on_err l).
    + destruct (ask_continue_frame fuel l (cerr_put full w))
        as (_ & Hclog & _ & tail & Hcerr).
      unfold final_world in *.
      destruct (ask_continue fuel _) as [[continue| | | |] s];
        try destruct continue; cbn [fst snd negb] in *;
        (split; [exact Hclog|]);
        exists tail; rewrite Hcerr; cbn; now rewrite append_assoc'.
    + cbn. split; [reflexivity|]. exists "". now rewrite append_empty_r.
  - intros Hlevel.
    assert (Hge : level_ge T_Level WARN = false)
      by (destruct Hlevel; subst; reflexivity).
    assert (Herr : level_eq T_Level ERROR = false)
      by (destruct Hlevel; subst; reflexivity).
    rewrite Hge, Herr. now cbn.
Qed.

Lemma log_routes_line_by_severity_witness :
  w_clog (final_world
            (log std_vformat plain_text WARN (here "Test warn") [] 1
                 (set_coloured_log false (Logger_new DEBUG),
                  world_of false "")))
  = ""
  /\ exists tail,
       w_cerr (final_world
                 (log std_vformat plain_text WARN (here "Test warn") [] 1
                      (set_coloured_log false (Logger_new DEBUG),
                       world_of false "")))
       = "" ++ ("[05:09.042 warn at main( test.cc:9 )]: Test warn" ++ Str.NL)
            ++ tail.
Proof.
  apply (log_routes_line_by_severity
           std_vformat plain_text WARN (here "Test warn") [] 1
           (set_coloured_log false (Logger_new DEBUG)) (world_of false "")
           ("[05:09.042 warn at main( test.cc:9 )]: Test warn" ++ Str.NL)).
  - reflexivity.
  - vm_compute. reflexivity.
  - left. reflexivity.
Defined.

(** C3, as the code has it.  An ERROR log call that passes the severity
    gate and finishes its line prints the line; with abort-on-error set it
    then enters [ask_continue] exactly once, aborts the process when the
    answer is false and returns when it is true; with abort-on-error
    cleared it returns after printing, without asking.  A log call at any
    other level never enters [ask_continue] and reads nothing from standard
    input. *)
Theorem error_escalation
    vformat string_formatter p_fmt p_args fuel (l : Logger) (w : World) :
  (forall full,
     level_lt ERROR (m_threshold_level l) = false ->
     log_line vformat string_formatter ERROR p_fmt p_args (l, w) = (Ok full, (l, w)) ->
     (m_abort_on_err l = true ->
        w_ask_calls (final_world (log vformat string_formatter ERROR p_fmt p_args fuel (l, w)))
        = S (w_ask_calls w)
        /\ (forall s, ask_continue fuel (l, cerr_put full w) = (Ok false, s) ->
              log vformat string_formatter ERROR p_fmt p_args fuel (l, w) = (Abort, s))
        /\ (forall s, ask_continue fuel (l, cerr_put full w) = (Ok true, s) ->
              log vformat string_formatter ERROR p_fmt p_args fuel (l, w) = (Ok tt, s)))
     /\ (m_abort_on_err l = false ->
           log vformat string_formatter ERROR p_fmt p_args fuel (l, w)
           = (Ok tt, (l, cerr_put full w))))
  /\ (forall T_Level,
        T_Level <> ERROR ->
        w_ask_calls
          (final_world (log vformat string_formatter T_Level p_fmt p_args fuel (l, w)))
        = w_ask_calls w
        /\ w_cin (final_world (log vformat string_formatter T_Level p_fmt p_args fuel (l, w)))
           = w_cin w).
Proof.
  split.
  - intros full Hgate Hline.
    rewrite (log_after_line _ _ _ _ _ fuel _ _ _ Hgate Hline).
    unfold print_and_escalate.
    change (level_ge ERROR WARN) with true.
    change (level_eq ERROR ERROR) with true.
    cbv zeta. cbn [andb].
    split; intros Habort; rewrite Habort; [|reflexivity].
    split; [|split].
    + destruct (ask_continue_frame fuel l (cerr_put full w))
        as (_ & _ & Hcalls & _).
      unfold final_world in *.
      destruct (ask_continue fuel _) as [[continue| | | |] s];
        try destruct continue; exact Hcalls.
    + intros s Hask. now rewrite Hask.
    + intros s Hask. now rewrite Hask.
  - intros T_Level Hlevel.
    rewrite log_run.
    destruct (level_lt T_Level (m_threshold_level l)); [now cbn|].
    destruct (outcome _) as [full| | | |]; try (now cbn).
    unfold print_and_escalate.
    assert (Herr : level_eq T_Level ERROR = false)
      by (destruct T_Level; try reflexivity; congruence).
    rewrite Herr. cbn.
    now destruct (level_ge T_Level WARN).
Qed.

Lemma error_escalation_witness :
  log std_vformat plain_text ERROR (here "Test ERROR") [] 1
      (plain_logger, world_of false "")
  = (Abort,
     (plain_logger,
      count_ask
        (cerr_put
           ("[05:09.042 error at main( test.cc:9 )]: Test ERROR" ++ Str.NL)
           (world_of false "")))).
Proof.
  pose proof (error_escalation std_vformat plain_text (here "Test ERROR") [] 1
                plain_logger (world_of false "")) as [Herror _].
  destruct (Herror
              ("[05:09.042 error at main( test.cc:9 )]: Test ERROR" ++ Str.NL)
              eq_refl ltac:(vm_compute; reflexivity)) as [Hset _].
  destruct (Hset eq_refl) as (_ & Hdeclined & _).
  apply Hdeclined. vm_compute. reflexivity.
Defined.

(** C3, counterexample.  Not every ERROR call reaches the prompt: a call
    whose format string asks for an argument that was not passed throws
    before the line is printed.  With abort-on-error set the prompt is not
    entered and the process is not aborted, although standard input is no
    terminal; with abort-on-error cleared the call does not return
    normally. *)
Lemma error_log_bad_format_skips_escalation :
  m_abort_on_err (Logger_new WARN) = true
  /\ level_lt ERROR (m_threshold_level (Logger_new WARN)) = false
  /\ log std_vformat plain_text ERROR (here "{}") [] 1
         (Logger_new WARN, world_of false "")
     = (Throw format_error, (Logger_new WARN, world_of false ""))
  /\ w_ask_calls (world_of false "") = O
  /\ log std_vformat plain_text ERROR (here "{}") [] 1
         (abort_on_error false (Logger_new WARN), world_of false "")
     = (Throw format_error,
        (abort_on_error false (Logger_new WARN), world_of false "")).
Proof. vm_compute. repeat split. Qed.

(** Changing the ask-continue-on-error flag changes nothing of what a log
    call does. *)
Lemma log_ignores_ask_continue
    vformat string_formatter T_Level p_fmt p_args fuel
    (l : Logger) (w : World) (b1 b2 : bool) :
  outcome (log vformat string_formatter T_Level p_fmt p_args fuel
               (ask_continue_on_error b1 l, w))
  = outcome (log vformat string_formatter T_Level p_fmt p_args fuel
                 (ask_continue_on_error b2 l, w))
  /\ final_world (log vformat string_formatter T_Level p_fmt p_args fuel
                      (ask_continue_on_error b1 l, w))
     = final_world (log vformat string_formatter T_Level p_fmt p_args fuel
                        (ask_continue_on_error b2 l, w))
  /\ final_logger (log vformat string_formatter T_Level p_fmt p_args fuel
                       (ask_continue_on_error b1 l, w))
     = ask_continue_on_error b1 l
  /\ final_logger (log vformat string_formatter T_Level p_fmt p_args fuel
                       (ask_continue_on_error b2 l, w))
     = ask_continue_on_error b2 l.
Proof.
  assert (Hlogger : forall b,
             final_logger (log vformat string_formatter T_Level p_fmt p_args fuel
                               (ask_continue_on_error b l, w))
             = ask_continue_on_error b l).
  { intros b. rewrite log_run.
    destruct (level_lt _ _); [reflexivity|].
    destruct (outcome _) as [full| | | |]; try reflexivity.
    unfold print_and_escalate.
    destruct (level_eq T_Level ERROR && _); [|reflexivity].
    destruct (ask_continue_frame fuel (ask_continue_on_error b l)
                ((if level_ge T_Level WARN
                  then cerr_put full else clog_put full) w)) as (Hl & _).
    unfold final_logger in *.
    destruct (ask_continue fuel _) as [[continue| | | |] s];
      try destruct continue; exact Hl. }
  assert (Hline : forall b,
             outcome (log_line vformat string_formatter T_Level p_fmt p_args
                               (ask_continue_on_error b l, w))
             = outcome (log_line vformat string_formatter T_Level p_fmt p_args (l, w))).
  { intros b. now rewrite !log_line_outcome. }
  split; [|split; [|split]]; try apply Hlogger.
  - rewrite !log_run, !Hline.
    cbn [m_threshold_level ask_continue_on_error].
    destruct (level_lt _ _); [reflexivity|].
    destruct (outcome _) as [full| | | |]; try reflexivity.
    unfold print_and_escalate.
    cbn [m_abort_on_err ask_continue_on_error].
    destruct (level_eq T_Level ERROR && _); [|reflexivity].
    destruct (ask_continue_blind fuel
                (ask_continue_on_error b1 l) (ask_continue_on_error b2 l)
                ((if level_ge T_Level WARN
                  then cerr_put full else clog_put full) w)) as (Ho & _).
    unfold outcome in *. cbv zeta.
    destruct (ask_continue fuel (ask_continue_on_error b1 l, _))
      as [r1 s1];
    destruct (ask_continue fuel (ask_continue_on_error b2 l, _))
      as [r2 s2].
    cbn [fst] in Ho. subst r2.
    destruct r1 as [continue| | | |]; try destruct continue; reflexivity.
  - rewrite !log_run, !Hline.
    cbn [m_threshold_level ask_continue_on_error].
    destruct (level_lt _ _); [reflexivity|].
    destruct (outcome _) as [full| | | |]; try reflexivity.
    unfold print_and_escalate.
    cbn [m_abort_on_err ask_continue_on_error].
    destruct (level_eq T_Level ERROR && _); [|reflexivity].
    destruct (ask_continue_blind fuel
                (ask_continue_on_error b1 l) (ask_continue_on_error b2 l)
                ((if level_ge T_Level WARN
                  then cerr_put full else clog_put full) w)) as (Ho & Hw).
    unfold outcome, final_world in *. cbv zeta.
    destruct (ask_continue fuel (ask_continue_on_error b1 l, _))
      as [r1 s1];
    destruct (ask_continue fuel (ask_continue_on_error b2 l, _))
      as [r2 s2].
    cbn [fst snd] in Ho, Hw. subst r2.
    destruct r1 as [continue| | | |]; try destruct continue; exact Hw.
Qed.

(** C9.  The ask-continue-on-error flag is never read: two loggers that
    differ in that flag only give every log call the same outcome (return,
    exception or abort) and leave the same environment behind, output
    included; the call changes neither logger. *)
Theorem ask_continue_flag_is_never_read
    vformat string_formatter T_Level p_fmt p_args fuel
    (l1 l2 : Logger) (w : World) :
  differ_only_in_ask_continue l1 l2 ->
  outcome (log vformat string_formatter T_Level p_fmt p_args fuel (l1, w))
  = outcome (log vformat string_formatter T_Level p_fmt p_args fuel (l2, w))
  /\ final_world
       (log vformat string_formatter T_Level p_fmt p_args fuel (l1, w))
     = final_world
         (log vformat string_formatter T_Level p_fmt p_args fuel (l2, w))
  /\ final_logger
       (log vformat string_formatter T_Level p_fmt p_args fuel (l1, w)) = l1
  /\ final_logger
       (log vformat string_formatter T_Level p_fmt p_args fuel (l2, w)) = l2.
Proof.
  intros (Hthreshold & Htime & Hformat & Hcoloured & Habort).
  assert (H1 : l1 = ask_continue_on_error (m_ask_continue l1) l1)
    by now destruct l1.
  assert (H2 : l2 = ask_continue_on_error (m_ask_continue l2) l1).
  { destruct l1, l2. cbn in *. now subst. }
  rewrite H2. rewrite H1 at 1 3 5 6.
  apply log_ignores_ask_continue.
Qed.

Lemma ask_continue_flag_is_never_read_witness :
  outcome (log std_vformat plain_text ERROR (here "Test ERROR") [] 1
               (Logger_new DEBUG, world_of false ""))
  = outcome (log std_vformat plain_text ERROR (here "Test ERROR") [] 1
                 (ask_continue_on_error false (Logger_new DEBUG),
                  world_of false "")).
Proof.
  apply (ask_continue_flag_is_never_read
           std_vformat plain_text ERROR (here "Test ERROR") [] 1
           (Logger_new DEBUG)
           (ask_continue_on_error false (Logger_new DEBUG))
           (world_of false "")).
  repeat split.
Defined.

(* ================================================================== *)
(** * [ask_continue] *)
(* ================================================================== *)

Lemma affirmative_iff (c : ascii) :
  affirmative c = true <-> c = "y"%char \/ c = "Y"%char.
Proof.
  destruct c as [[] [] [] [] [] [] [] []]; vm_compute;
    (split; [intros H; try discriminate H; auto
            | intros [H|H]; try discriminate H; reflexivity]).
Qed.

Lemma negative_iff (c : ascii) :
  negative c = true <-> c = "n"%char \/ c = "N"%char.
Proof.
  destruct c as [[] [] [] [] [] [] [] []]; vm_compute;
    (split; [intros H; try discriminate H; auto
            | intros [H|H]; try discriminate H; reflexivity]).
Qed.

(** No terminal: the answer is false at once, nothing is written or read. *)
Lemma ask_continue_without_terminal (fuel : nat) (l : Logger) (w : World) :
  w_stdin_tty w = false ->
  ask_continue fuel (l, w) = (Ok false, (l, count_ask w)).
Proof.
  intros Htty.
  unfold ask_continue, is_stdin_available, bind, modify_world, world, ret.
  cbn. now rewrite Htty.
Qed.

(** One turn of the prompt on a stream in good state whose next line is
    complete: the empty line and a line that starts with n or N answer
    false, a line that starts with y or Y answers true, any other line
    prints the guidance and asks again. *)
Lemma ask_continue_loop_turn
    (fuel : nat) (line0 : string) (l : Logger) (w : World)
    (answer rest : string) :
  is_eof (w_cin w) = false ->
  is_fail (w_cin w) = false ->
  split_line (is_buf (w_cin w)) = Some (answer, rest) ->
  let asked := with_cin (cin_of rest) (cerr_put ask_prompt w) in
  ask_continue_loop (S fuel) line0 (l, w)
  = match answer with
    | "" => (Ok false, (l, asked))
    | String c _ =>
      if affirmative c then (Ok true, (l, asked))
      else if negative c then (Ok false, (l, asked))
      else ask_continue_loop fuel answer (l, cerr_put ask_guidance asked)
    end.
Proof.
  intros Heof Hfail Hsplit asked.
  cbn [ask_continue_loop].
  unfold bind, modify_world, world, lift, ret. cbn [fst snd].
  unfold getline. cbn [w_cin cerr_put].
  rewrite Heof, Hfail, Hsplit. cbn [orb fst snd].
  destruct answer as [|c r]; [reflexivity|].
  cbn [Str.sv_empty at0 String.get].
  unfold affirmative, negative.
  destruct (Ascii.eqb (Str.tolower c) "y"); [reflexivity|].
  destruct (Ascii.eqb (Str.tolower c) "n"); reflexivity.
Qed.

(** The input ends where a line would start: the answer is false. *)
Lemma ask_continue_loop_at_end
    (fuel : nat) (line0 : string) (l : Logger) (w : World) :
  is_eof (w_cin w) = false ->
  is_fail (w_cin w) = false ->
  is_buf (w_cin w) = "" ->
  ask_continue_loop (S fuel) line0 (l, w)
  = (Ok false,
     (l, with_cin (mkIs "" true true) (cerr_put ask_prompt w))).
Proof.
  intros Heof Hfail Hbuf.
  cbn [ask_continue_loop].
  unfold bind, modify_world, world, lift, ret. cbn [fst snd].
  unfold getline. cbn [w_cin cerr_put].
  now rewrite Heof, Hfail, Hbuf.
Qed.

Lemma split_line_complete (answer rest : string) :
  split_line answer = None ->
  split_line (answer ++ Str.NL ++ rest) = Some (answer, rest).
Proof.
  induction answer as [|c r IH]; intros Hnone; [reflexivity|].
  cbn [split_line append] in *.
  destruct (Ascii.eqb c _); [discriminate Hnone|].
  destruct (split_line r) as [[x y]|]; [discriminate Hnone|].
  now rewrite IH.
Qed.

(** When the input is made of refused lines, each complete, the prompt asks
    once per line and once more, finds the end of the input where a line
    would start, and answers false. *)
Lemma ask_continue_loop_refuses_to_the_end (answers : list string) :
  forall (line0 : string) (l : Logger) (w : World),
    Forall refused answers ->
    w_cin w = cin_of (complete_lines answers) ->
    outcome (ask_continue_loop (S (List.length answers)) line0 (l, w))
    = Ok false.
Proof.
  induction answers as [|answer more IH]; intros line0 l w Hall Hcin.
  - rewrite ask_continue_loop_at_end; try reflexivity; now rewrite Hcin.
  - inversion Hall as [|x xs [Hnone (c & r & -> & Hy & Hn)] Hmore]; subst.
    cbn [List.length].
    rewrite (ask_continue_loop_turn _ _ _ _ (String c r)
               (complete_lines more));
      try (now rewrite Hcin).
    + rewrite Hy, Hn. now apply IH.
    + rewrite Hcin. cbn [cin_of is_buf complete_lines].
      now apply split_line_complete.
Qed.

(** Once the stream is no longer good, [getline] leaves [line] as it is:
    a line that is neither empty nor an answer is looked at again and again. *)
Lemma ask_continue_loop_spins (fuel : nat) :
  forall (c : ascii) (r : string) (l : Logger) (w : World),
    is_eof (w_cin w) || is_fail (w_cin w) = true ->
    affirmative c = false ->
    negative c = false ->
    outcome (ask_continue_loop fuel (String c r) (l, w)) = OutOfFuel.
Proof.
  induction fuel as [|fuel IH]; intros c r l w Hbad Hy Hn; [reflexivity|].
  cbn [ask_continue_loop].
  unfold bind, modify_world, world, lift, ret. cbn [fst snd].
  unfold getline. cbn [w_cin cerr_put].
  rewrite Hbad. cbn [fst snd Str.sv_empty at0 String.get].
  unfold affirmative, negative in Hy, Hn. rewrite Hy, Hn.
  cbn [fst snd].
  apply IH; auto.
  cbn. apply orb_true_r.
Qed.

(** C4, where the code departs from it.  On a terminal, when the input ends
    in the middle of a line that is neither empty nor an answer, the first
    [getline] returns that line and sets [eofbit]; every later [getline]
    fails and leaves the line in place, so the loop asks again without end:
    whatever the bound on the number of turns, [ask_continue] has not
    returned. *)
Theorem ask_continue_spins_on_unterminated_line
    (fuel : nat) (l : Logger) (c : ascii) (r : string) :
  split_line (String c r) = None ->
  affirmative c = false ->
  negative c = false ->
  outcome (ask_continue fuel (l, world_of true (String c r))) = OutOfFuel.
Proof.
  intros Hline Hy Hn.
  unfold ask_continue, is_stdin_available, bind at 1, modify_world.
  cbn [fst snd].
  unfold bind at 1, world, ret. cbn [fst snd negb w_stdin_tty count_ask
    world_of].
  destruct fuel as [|fuel]; [reflexivity|].
  cbn [ask_continue_loop].
  unfold bind, modify_world, world, lift, ret. cbn [fst snd].
  unfold getline. cbn -[split_line ask_continue_loop].
  rewrite Hline. cbn -[ask_continue_loop Str.tolower].
  unfold affirmative, negative in Hy, Hn. rewrite Hy, Hn.
  cbn [fst snd].
  apply ask_continue_loop_spins; auto.
Qed.

Lemma ask_continue_spins_on_unterminated_line_witness :
  outcome (ask_continue 1000 (Logger_new WARN, world_of true "x")) = OutOfFuel.
Proof.
  apply (ask_continue_spins_on_unterminated_line
           1000 (Logger_new WARN) "x"%char "");
    reflexivity.
Defined.

(** The same input with its newline is answered: the line is refused, the
    guidance printed, and the end of the input then reads as an empty line. *)
Lemma ask_continue_terminated_line_returns :
  outcome (ask_continue 2 (Logger_new WARN, world_of true ("x" ++ Str.NL)))
  = Ok false.
Proof. reflexivity. Qed.

(* ================================================================== *)
(** * The default time format *)
(* ================================================================== *)

(** C5, where the code departs from it.  A new logger has the time format
    [%M:%S.%MS]; [set_time_format] called without an argument installs the
    default argument of its declaration, [%MS.%S:%M], which is another
    string and renders the fields in another order. *)
Theorem set_time_format_default_is_not_the_initial_format
    (l : Logger) (p_loglevel : LogLevel) :
  m_time_format (Logger_new p_loglevel) = "%M:%S.%MS"
  /\ m_time_format (set_time_format_no_argument l) = "%MS.%S:%M"
  /\ m_time_format (set_time_format_no_argument l)
     <> m_time_format (Logger_new p_loglevel)
  /\ format_time t_13_05_09_042 (m_time_format (Logger_new p_loglevel))
     = Some "05:09.042"
  /\ format_time t_13_05_09_042
       (m_time_format (set_time_format_no_argument l))
     = Some "042.09:05".
Proof.
  repeat split; try reflexivity.
  cbn. discriminate.
Qed.

(* ================================================================== *)
(** * Format errors *)
(* ================================================================== *)

Module FmtFacts.
Import Fmt.

Lemma fields_of_cons_text c r : fields_of (Text c :: r) = fields_of r.
Proof. reflexivity. Qed.

Lemma fields_of_cons_field id spec r :
  fields_of (Field id spec :: r) = (id, spec) :: fields_of r.
Proof. reflexivity. Qed.

Ltac emit_step H :=
  cbn [emit] in H;
  try discriminate H;
  repeat match type of H with
         | match ?x with _ => _ end = Some _ =>
           let E := fresh "E" in destruct x eqn:E; try discriminate H
         | option_map _ ?x = Some _ =>
           let E := fresh "E" in
           destruct x eqn:E; [clear H | discriminate H]
         end.

(** After a field with an index, no automatic field is accepted. *)
Lemma emit_manual (segs : list segment) :
  forall args next text spec,
    emit segs args Manual next = Some text ->
    ~ In (None, spec) (fields_of segs).
Proof.
  induction segs as [|[c|[n|] sp] r IH]; intros args next text spec H;
    [intros [] | | |].
  - emit_step H. rewrite fields_of_cons_text. eauto.
  - emit_step H. rewrite fields_of_cons_field.
    intros [Heq|Hin]; [discriminate Heq|]. eapply IH; eauto.
  - emit_step H.
Qed.

(** After an automatic field, no field with an index is accepted. *)
Lemma emit_auto (segs : list segment) :
  forall args next text n spec,
    emit segs args Auto next = Some text ->
    ~ In (Some n, spec) (fields_of segs).
Proof.
  induction segs as [|[c|[m|] sp] r IH]; intros args next text n spec H;
    [intros [] | | |].
  - emit_step H. rewrite fields_of_cons_text. eauto.
  - emit_step H.
  - emit_step H. rewrite fields_of_cons_field.
    intros [Heq|Hin]; [discriminate Heq|]. eapply IH; eauto.
Qed.

(** When formatting succeeds, a field with an index has its argument,
    and the argument accepts the spec. *)
Lemma emit_indexed (segs : list segment) :
  forall args mode next text n spec,
    emit segs args mode next = Some text ->
    In (Some n, spec) (fields_of segs) ->
    exists a out, nth_error args n = Some a /\ arg_format a spec = Some out.
Proof.
  induction segs as [|[c|[m|] sp] r IH];
    intros args mode next text n spec H Hin; [destruct Hin | | |].
  - emit_step H. rewrite fields_of_cons_text in Hin. eauto.
  - rewrite fields_of_cons_field in Hin.
    emit_step H;
      (destruct Hin as [Heq|Hin];
       [injection Heq as -> ->; eauto | eauto]).
  - rewrite fields_of_cons_field in Hin.
    emit_step H;
      (destruct Hin as [Heq|Hin]; [discriminate Heq | eauto]).
Qed.

(** When formatting succeeds, an automatic field has the argument of its
    position, and the argument accepts the spec. *)
Lemma emit_automatic (segs : list segment) :
  forall args mode next text before after spec,
    emit segs args mode next = Some text ->
    fields_of segs = (before ++ (None, spec) :: after)%list ->
    exists a out,
      nth_error args (next + List.length before) = Some a
      /\ arg_format a spec = Some out.
Proof.
  induction segs as [|[c|[m|] sp] r IH];
    intros args mode next text before after spec H Hf.
  - now destruct before.
  - emit_step H. rewrite fields_of_cons_text in Hf. eauto.
  - rewrite fields_of_cons_field in Hf.
    destruct before as [|x before]; [discriminate Hf|].
    cbn in Hf. injection Hf as Hx Hf.
    assert (Hmanual : exists out, emit r args Manual next = Some out)
      by (emit_step H; eauto).
    destruct Hmanual as [out Hout].
    exfalso. apply (emit_manual r args next out spec Hout).
    rewrite Hf. apply in_or_app. right. now left.
  - rewrite fields_of_cons_field in Hf.
    destruct before as [|x before].
    + cbn in Hf. injection Hf as Hsp Hf. subst sp.
      rewrite Nat.add_0_r.
      emit_step H; eauto.
    + cbn in Hf. injection Hf as Hx Hf.
      cbn [List.length]. rewrite Nat.add_succ_r.
      emit_step H; eapply (IH args Auto (S next)); eauto.
Qed.

Lemma vformat_only_format_error (fmt : string) (args : list format_arg) :
  (exists text, std_vformat fmt args = Ok text)
  \/ std_vformat fmt args = Throw format_error.
Proof.
  unfold std_vformat.
  destruct (scan InText fmt); [|now right].
  destruct (emit _ _ _ _); [left; eauto | now right].
Qed.

(** A template that does not match its arguments is a format error. *)
Lemma mismatch_throws (fmt : string) (args : list format_arg) :
  mismatch fmt args -> std_vformat fmt args = Throw format_error.
Proof.
  unfold std_vformat, fields.
  intros Hm.
  destruct (scan InText fmt) as [segs|] eqn:Hscan; [|reflexivity].
  destruct (emit segs args Unknown 0) as [text|] eqn:Hemit; [|reflexivity].
  exfalso.
  destruct Hm as [n spec Hin Hlen | before after spec Hf Hlen
                 | n spec a Hin Hnth Hrej | before after spec a Hf Hnth Hrej];
    unfold fields in *; rewrite Hscan in *.
  - destruct (emit_indexed _ _ _ _ _ _ _ Hemit Hin) as (a & out & Hnth & _).
    apply nth_error_None in Hlen. congruence.
  - destruct (emit_automatic _ _ _ _ _ _ _ _ Hemit Hf)
      as (a & out & Hnth & _).
    apply nth_error_None in Hlen. cbn in Hnth. congruence.
  - destruct (emit_indexed _ _ _ _ _ _ _ Hemit Hin) as (a' & out & Hn & Hok).
    congruence.
  - destruct (emit_automatic _ _ _ _ _ _ _ _ Hemit Hf)
      as (a' & out & Hn & Hok).
    cbn in Hn. congruence.
Qed.

End FmtFacts.

(** C7.  On a log call that passes the severity gate, a format error leaves
    [log] as an exception to its caller, with nothing printed and the prompt
    not entered: whatever the formatter, an exception it throws on the user
    message or on the final template is the outcome of [log]; and with the
    standard formatter a user message that does not match its arguments, a
    final template that does not match the six fields, and in particular a
    final template with a field of index six or more, all throw
    [format_error]. *)
Theorem format_error_reaches_caller
    string_formatter T_Level p_fmt p_args fuel (l : Logger) (w : World) labels :
  level_lt T_Level (m_threshold_level l) = false ->
  label_at T_Level = Ok labels ->
  (Str.size (function_name (source p_fmt)) < Str.npos)%N ->
  let function := extract_function_name (function_name (source p_fmt)) in
  (forall vformat e,
     vformat (fmt p_fmt) p_args = Throw e ->
     log vformat string_formatter T_Level p_fmt p_args fuel (l, w) = (Throw e, (l, w)))
  /\ (forall vformat e msg,
        vformat (fmt p_fmt) p_args = Ok msg ->
        vformat (effective_log_format l)
                (make_format_args string_formatter (log_fields l w p_fmt labels function msg))
        = Throw e ->
        log vformat string_formatter T_Level p_fmt p_args fuel (l, w) = (Throw e, (l, w)))
  /\ (Fmt.mismatch (fmt p_fmt) p_args ->
      log std_vformat string_formatter T_Level p_fmt p_args fuel (l, w)
      = (Throw format_error, (l, w)))
  /\ (forall msg,
        std_vformat (fmt p_fmt) p_args = Ok msg ->
        Fmt.mismatch (effective_log_format l)
          (make_format_args string_formatter (log_fields l w p_fmt labels function msg)) ->
        log std_vformat string_formatter T_Level p_fmt p_args fuel (l, w)
        = (Throw format_error, (l, w)))
  /\ (forall n spec,
        In (Some n, spec) (Fmt.fields (effective_log_format l)) ->
        (6 <= n)%nat ->
        log std_vformat string_formatter T_Level p_fmt p_args fuel (l, w)
        = (Throw format_error, (l, w))).
Proof.
  intros Hgate Hlabel Hsize function.
  assert (Hname : bare_function_name (function_name (source p_fmt))
                  = Ok function)
    by (apply bare_function_name_spec; exact Hsize).
  assert (Hnested : forall vformat e,
             vformat (fmt p_fmt) p_args = Throw e ->
             log vformat string_formatter T_Level p_fmt p_args fuel (l, w) = (Throw e, (l, w))).
  { intros vformat e Hthrow.
    rewrite log_run, Hgate, log_line_outcome, Hlabel.
    cbn [result_bind]. now rewrite Hthrow. }
  assert (Houter : forall vformat e msg,
             vformat (fmt p_fmt) p_args = Ok msg ->
             vformat (effective_log_format l)
               (make_format_args string_formatter (log_fields l w p_fmt labels function msg))
             = Throw e ->
             log vformat string_formatter T_Level p_fmt p_args fuel (l, w) = (Throw e, (l, w))).
  { intros vformat e msg Hmsg Hthrow.
    rewrite log_run, Hgate, log_line_outcome, Hlabel.
    cbn [result_bind]. rewrite Hmsg. cbn [result_bind].
    rewrite Hname. cbn [result_bind]. now rewrite Hthrow. }
  assert (Hmismatch : forall msg,
             std_vformat (fmt p_fmt) p_args = Ok msg ->
             Fmt.mismatch (effective_log_format l)
               (make_format_args string_formatter (log_fields l w p_fmt labels function msg)) ->
             log std_vformat string_formatter T_Level p_fmt p_args fuel (l, w)
             = (Throw format_error, (l, w))).
  { intros msg Hmsg Hm.
    apply (Houter std_vformat format_error msg Hmsg).
    now apply FmtFacts.mismatch_throws. }
  split; [exact Hnested|]. split; [exact Houter|].
  split; [|split; [exact Hmismatch|]].
  - intros Hm. apply Hnested. now apply FmtFacts.mismatch_throws.
  - intros n spec Hin Hn.
    destruct (FmtFacts.vformat_only_format_error (fmt p_fmt) p_args)
      as [[msg Hmsg] | Hthrow]; [|now apply Hnested].
    apply (Hmismatch msg Hmsg).
    apply (Fmt.missing_indexed _ _ n spec Hin).
    cbn. exact Hn.
Qed.

Lemma format_error_reaches_caller_witness :
  log std_vformat plain_text WARN (here "Test log format {}") [] 1
      (Logger_new DEBUG, world_of false "")
  = (Throw format_error, (Logger_new DEBUG, world_of false ""))
  /\ log std_vformat plain_text WARN (here "Test log format {}") [arg_int 1] 1
         (set_log_format "[{0}] {6}" (Logger_new DEBUG), world_of false "")
     = (Throw format_error,
        (set_log_format "[{0}] {6}" (Logger_new DEBUG), world_of false "")).
Proof.
  split.
  - refine (proj1 (proj2 (proj2
      (format_error_reaches_caller
         plain_text WARN (here "Test log format {}") [] 1
         (Logger_new DEBUG) (world_of false "")
         (nth 2 m_LOG_LABELS ("", "")) eq_refl eq_refl eq_refl))) _).
    apply (Fmt.missing_automatic _ _ [] [] ""); [reflexivity | cbn; lia].
  - refine (proj2 (proj2 (proj2 (proj2
      (format_error_reaches_caller
         plain_text WARN (here "Test log format {}") [arg_int 1] 1
         (set_log_format "[{0}] {6}" (Logger_new DEBUG)) (world_of false "")
         (nth 2 m_LOG_LABELS ("", "")) eq_refl eq_refl eq_refl)))) 6%nat "" _ _).
    + vm_compute. right. now left.
    + lia.
Defined.

(* ================================================================== *)
(** * Timestamps: verbatim text and fixed width *)
(* ================================================================== *)


Lemma render_percent_free (now : TimePoint) (a b : string) :
  percent_free a = true -> render now (a ++ b) = a ++ render now b.
Proof.
  induction a as [|c a IH]; intros Hfree; [reflexivity|].
  cbn [percent_free] in Hfree.
  apply andb_true_iff in Hfree as [Hc Ha].
  apply negb_true_iff in Hc.
  cbn [append render]. rewrite Hc. now rewrite IH.
Qed.

(** X1.  [format_time] copies text without a percent sign as it is: such a
    text in front of a format comes out in front of what the rest of the
    format gives, at any time, and a format without a percent sign is its
    own timestamp. *)
Theorem format_time_copies_plain_text (now : TimePoint) (a b : string) :
  percent_free a = true ->
  format_time now (a ++ b) = option_map (append a) (format_time now b)
  /\ format_time now a = Some a.
Proof.
  intros Hfree. rewrite !format_time_render. cbn [option_map].
  split.
  - now rewrite render_percent_free.
  - rewrite <- (append_empty_r a) at 1.
    rewrite render_percent_free by exact Hfree.
    cbn [render]. now rewrite append_empty_r.
Qed.

Lemma format_time_copies_plain_text_witness :
  format_time t_13_05_09_042 ("at " ++ "%H h")
  = option_map (append "at ") (format_time t_13_05_09_042 "%H h")
  /\ format_time t_13_05_09_042 "at " = Some "at ".
Proof.
  apply (format_time_copies_plain_text t_13_05_09_042 "at " "%H h").
  reflexivity.
Defined.






(* ================================================================== *)
(** * The prompt, turn by turn *)
(* ================================================================== *)

Lemma ask_continue_on_terminal (fuel : nat) (l : Logger) (w : World) :
  w_stdin_tty w = true ->
  ask_continue fuel (l, w) = ask_continue_loop fuel "" (l, count_ask w).
Proof.
  intros Htty.
  unfold ask_continue, is_stdin_available, bind, modify_world, world, ret.
  cbn [fst snd count_ask w_stdin_tty]. now rewrite Htty.
Qed.

Lemma world_eta (w : World) :
  mkWorld (w_cerr w) (w_clog w) (w_cin w) (w_stdin_tty w) (w_clock w)
          (w_ask_calls w) = w.
Proof. now destruct w. Qed.

(** The loop on refused lines followed by a decisive one. *)
Lemma ask_continue_loop_decides (answers : list string) :
  forall (line0 last rest : string) (l : Logger) (w : World),
    Forall refused answers ->
    decisive last ->
    w_cin w = cin_of (complete_lines answers ++ last ++ Str.NL ++ rest) ->
    ask_continue_loop (S (List.length answers)) line0 (l, w)
    = (Ok (answer_of last),
       (l, with_cin (cin_of rest)
                    (cerr_put (asked (List.length answers)) w))).
Proof.
  induction answers as [|answer more IH];
    intros line0 last rest l w Hall [Hnone Hlast] Hcin.
  - cbn [complete_lines append List.length asked] in *.
    rewrite (ask_continue_loop_turn _ _ _ _ last rest);
      try (now rewrite Hcin).
    + destruct last as [|c r]; [reflexivity|].
      cbn [answer_of].
      destruct (affirmative c); [reflexivity|].
      cbn in Hlast. now rewrite Hlast.
    + rewrite Hcin. cbn [cin_of is_buf]. now apply split_line_complete.
  - inversion Hall as [|x xs [Hn (c & r & -> & Hy & Hno)] Hmore]; subst.
    cbn [List.length].
    rewrite (ask_continue_loop_turn _ _ _ _ (String c r)
               (complete_lines more ++ last ++ Str.NL ++ rest));
      try (now rewrite Hcin).
    + rewrite Hy, Hno.
      rewrite (IH (String c r) last rest); auto.
      * f_equal. f_equal. unfold with_cin, cerr_put. cbn.
        f_equal. now rewrite !append_assoc'.
      * split; assumption.
    + rewrite Hcin. cbn [cin_of is_buf complete_lines].
      rewrite !append_assoc'.
      now apply split_line_complete.
Qed.

(** The loop on refused lines after which the input ends. *)
Lemma ask_continue_loop_runs_out (answers : list string) :
  forall (line0 : string) (l : Logger) (w : World),
    Forall refused answers ->
    w_cin w = cin_of (complete_lines answers) ->
    ask_continue_loop (S (List.length answers)) line0 (l, w)
    = (Ok false,
       (l, with_cin (mkIs "" true true)
                    (cerr_put (asked (List.length answers)) w))).
Proof.
  induction answers as [|answer more IH]; intros line0 l w Hall Hcin.
  - rewrite ask_continue_loop_at_end; try reflexivity; now rewrite Hcin.
  - inversion Hall as [|x xs [Hn (c & r & -> & Hy & Hno)] Hmore]; subst.
    cbn [List.length].
    rewrite (ask_continue_loop_turn _ _ _ _ (String c r)
               (complete_lines more));
      try (now rewrite Hcin).
    + rewrite Hy, Hno.
      rewrite (IH (String c r)); auto.
      f_equal. f_equal. unfold with_cin, cerr_put. cbn.
      f_equal. now rewrite !append_assoc'.
    + rewrite Hcin. cbn [cin_of is_buf complete_lines].
      now apply split_line_complete.
Qed.

(** A stream that is not good when the prompt starts: one prompt, and the
    answer is false. *)
Lemma ask_continue_loop_on_bad_stream
    (fuel : nat) (l : Logger) (w : World) :
  is_eof (w_cin w) || is_fail (w_cin w) = true ->
  ask_continue_loop (S fuel) "" (l, w)
  = (Ok false,
     (l, with_cin (mkIs (is_buf (w_cin w)) (is_eof (w_cin w)) true)
                  (cerr_put ask_prompt w))).
Proof.
  intros Hbad.
  cbn [ask_continue_loop].
  unfold bind, modify_world, world, lift, ret. cbn [fst snd].
  unfold getline. cbn [w_cin cerr_put].
  now rewrite Hbad.
Qed.

(** The prompt never throws and never aborts by itself. *)
Lemma ask_continue_loop_outcome (fuel : nat) :
  forall (line : string) (l : Logger) (w : World),
    (exists b, outcome (ask_continue_loop fuel line (l, w)) = Ok b)
    \/ outcome (ask_continue_loop fuel line (l, w)) = OutOfFuel.
Proof.
  induction fuel as [|fuel IH]; intros line l w; [now right|].
  cbn [ask_continue_loop]. run. cbn [w_cin cerr_put].
  destruct (getline (w_cin w) line) as [cin' line'].
  cbn [fst snd].
  destruct line' as [|c r]; [left; now exists false|].
  cbn [Str.sv_empty at0 String.get fst snd].
  destruct (Ascii.eqb (Str.tolower c) "y"); [left; now exists true|].
  destruct (Ascii.eqb (Str.tolower c) "n"); [left; now exists false|].
  apply IH.
Qed.

Lemma ask_continue_outcome (fuel : nat) (l : Logger) (w : World) :
  (exists b, outcome (ask_continue fuel (l, w)) = Ok b)
  \/ outcome (ask_continue fuel (l, w)) = OutOfFuel.
Proof.
  unfold ask_continue, is_stdin_available, bind, modify_world, world, ret.
  cbn [fst snd].
  destruct (negb (w_stdin_tty (count_ask w))); [left; now exists false|].
  apply ask_continue_loop_outcome.
Qed.

(** The loop leaves the terminal probe and the clock alone. *)
Lemma ask_continue_loop_probe (fuel : nat) :
  forall (line : string) (l : Logger) (w : World),
    w_stdin_tty (final_world (ask_continue_loop fuel line (l, w)))
    = w_stdin_tty w
    /\ w_clock (final_world (ask_continue_loop fuel line (l, w)))
       = w_clock w.
Proof.
  induction fuel as [|fuel IH]; intros line l w; [now cbn|].
  cbn [ask_continue_loop]. run. cbn [w_cin cerr_put].
  destruct (getline (w_cin w) line) as [cin' line'].
  cbn [fst snd].
  destruct line' as [|c r]; [now cbn|].
  cbn [Str.sv_empty at0 String.get fst snd].
  destruct (Ascii.eqb (Str.tolower c) "y"); [now cbn|].
  destruct (Ascii.eqb (Str.tolower c) "n"); [now cbn|].
  destruct (IH (String c r) l
              (cerr_put ask_guidance (with_cin cin' (cerr_put ask_prompt w))))
    as [Htty Hclock].
  split; [exact Htty | exact Hclock].
Qed.

Lemma ask_continue_probe (fuel : nat) (l : Logger) (w : World) :
  w_stdin_tty (final_world (ask_continue fuel (l, w))) = w_stdin_tty w
  /\ w_clock (final_world (ask_continue fuel (l, w))) = w_clock w.
Proof.
  unfold ask_continue, is_stdin_available, bind, modify_world, world, ret.
  cbn [fst snd].
  destruct (negb (w_stdin_tty (count_ask w))); [now cbn|].
  apply (ask_continue_loop_probe fuel "" l (count_ask w)).
Qed.

(** X3.  On a terminal, [ask_continue] asks until a line decides: after
    any number of complete lines that are neither empty nor an answer, a
    line that is empty or starts with y, Y, n or N is the answer (true for y
    and Y only).  Exactly those lines are consumed, what follows stays
    unread; the prompt is written once per line read, the guidance once per
    refused line; [std::clog] and the logger are left alone. *)
Theorem ask_continue_answers_on_decisive_line
    (answers : list string) (last rest : string) (l : Logger) (w : World) :
  w_stdin_tty w = true ->
  Forall refused answers ->
  decisive last ->
  w_cin w = cin_of (complete_lines answers ++ last ++ Str.NL ++ rest) ->
  ask_continue (S (List.length answers)) (l, w)
  = (Ok (answer_of last),
     (l, after_asking (asked (List.length answers)) (cin_of rest) w)).
Proof.
  intros Htty Hall Hlast Hcin.
  rewrite ask_continue_on_terminal by exact Htty.
  rewrite (ask_continue_loop_decides answers "" last rest); auto.
Qed.

Lemma ask_continue_answers_on_decisive_line_witness :
  ask_continue 3
    (Logger_new WARN,
     world_of true ("maybe" ++ Str.NL ++ "what?" ++ Str.NL
                    ++ "Yes" ++ Str.NL ++ "next"))
  = (Ok true,
     (Logger_new WARN,
      after_asking (asked 2) (cin_of "next")
        (world_of true ("maybe" ++ Str.NL ++ "what?" ++ Str.NL
                        ++ "Yes" ++ Str.NL ++ "next")))).
Proof.
  apply (ask_continue_answers_on_decisive_line
           ["maybe"; "what?"] "Yes" "next" (Logger_new WARN)
           (world_of true ("maybe" ++ Str.NL ++ "what?" ++ Str.NL
                           ++ "Yes" ++ Str.NL ++ "next"))).
  - reflexivity.
  - repeat constructor;
      (eexists; eexists; split; [reflexivity | split; reflexivity]).
  - split; reflexivity.
  - reflexivity.
Defined.

(** X4.  On a terminal, when the input ends where a line would start,
    [ask_continue] answers false: after any number of complete lines that
    are neither empty nor an answer it asks once more, finds no line, and
    returns false with [eofbit] and [failbit] set on standard input.  When
    standard input is not good as the prompt starts, it asks once, reads
    nothing, and returns false. *)
Theorem ask_continue_false_at_end_of_input
    (answers : list string) (l : Logger) (w : World) :
  w_stdin_tty w = true ->
  (Forall refused answers ->
   w_cin w = cin_of (complete_lines answers) ->
   ask_continue (S (List.length answers)) (l, w)
   = (Ok false,
      (l, after_asking (asked (List.length answers)) (mkIs "" true true) w)))
  /\ (forall fuel,
        is_eof (w_cin w) || is_fail (w_cin w) = true ->
        ask_continue (S fuel) (l, w)
        = (Ok false,
           (l, after_asking ask_prompt
                 (mkIs (is_buf (w_cin w)) (is_eof (w_cin w)) true) w))).
Proof.
  intros Htty. split.
  - intros Hall Hcin.
    rewrite ask_continue_on_terminal by exact Htty.
    rewrite (ask_continue_loop_runs_out answers ""); auto.
  - intros fuel Hbad.
    rewrite ask_continue_on_terminal by exact Htty.
    rewrite ask_continue_loop_on_bad_stream; auto.
Qed.

Lemma ask_continue_false_at_end_of_input_witness :
  ask_continue 2 (Logger_new WARN, world_of true ("x" ++ Str.NL))
  = (Ok false,
     (Logger_new WARN,
      after_asking (asked 1) (mkIs "" true true)
                   (world_of true ("x" ++ Str.NL)))).
Proof.
  refine (proj1 (ask_continue_false_at_end_of_input
                   ["x"] (Logger_new WARN) (world_of true ("x" ++ Str.NL))
                   eq_refl) _ eq_refl).
  repeat constructor.
  eexists; eexists; split; [reflexivity | split; reflexivity].
Defined.

(** X5.  Whatever standard input holds, [ask_continue] returns an answer
    or keeps asking: it never throws and never aborts.  It leaves the
    logger, [std::clog], the terminal probe and the clock as they were,
    and what it writes to [std::cerr] is added after what was there. *)
Theorem ask_continue_keeps_to_the_prompt
    (fuel : nat) (l : Logger) (w : World) :
  ((exists b, outcome (ask_continue fuel (l, w)) = Ok b)
   \/ outcome (ask_continue fuel (l, w)) = OutOfFuel)
  /\ final_logger (ask_continue fuel (l, w)) = l
  /\ w_clog (final_world (ask_continue fuel (l, w))) = w_clog w
  /\ w_stdin_tty (final_world (ask_continue fuel (l, w))) = w_stdin_tty w
  /\ w_clock (final_world (ask_continue fuel (l, w))) = w_clock w
  /\ exists text,
       w_cerr (final_world (ask_continue fuel (l, w))) = w_cerr w ++ text.
Proof.
  destruct (ask_continue_frame fuel l w) as (Hl & Hclog & _ & Hcerr).
  destruct (ask_continue_probe fuel l w) as (Htty & Hclock).
  pose proof (ask_continue_outcome fuel l w) as Hout.
  repeat split; assumption.
Qed.

(** One turn on a stream in good state whose last line has no newline: the
    line is read, [eofbit] is set, and a decisive line is the answer. *)
Lemma ask_continue_loop_last_line
    (fuel : nat) (line0 : string) (l : Logger) (w : World)
    (c : ascii) (r : string) :
  w_cin w = cin_of (String c r) ->
  decisive (String c r) ->
  ask_continue_loop (S fuel) line0 (l, w)
  = (Ok (affirmative c),
     (l, with_cin (mkIs "" true false) (cerr_put ask_prompt w))).
Proof.
  intros Hcin [Hnone Hlast].
  cbn [ask_continue_loop].
  unfold bind, modify_world, world, lift, ret. cbn [fst snd].
  unfold getline. cbn [w_cin cerr_put].
  rewrite Hcin. cbn [cin_of is_eof is_fail is_buf orb].
  rewrite Hnone. cbn [Str.sv_empty at0 String.get fst snd].
  unfold affirmative, negative in *.
  destruct (Ascii.eqb (Str.tolower c) "y"); [reflexivity|].
  cbn in Hlast. now rewrite Hlast.
Qed.

Lemma ask_continue_loop_decides_at_end (answers : list string) :
  forall (line0 : string) (c : ascii) (r : string) (l : Logger) (w : World),
    Forall refused answers ->
    decisive (String c r) ->
    w_cin w = cin_of (complete_lines answers ++ String c r) ->
    ask_continue_loop (S (List.length answers)) line0 (l, w)
    = (Ok (affirmative c),
       (l, with_cin (mkIs "" true false)
                    (cerr_put (asked (List.length answers)) w))).
Proof.
  induction answers as [|answer more IH];
    intros line0 c r l w Hall Hlast Hcin.
  - now apply (ask_continue_loop_last_line _ _ _ _ c r).
  - inversion Hall as [|x xs [Hn (c' & r' & -> & Hy & Hno)] Hmore]; subst.
    cbn [List.length].
    rewrite (ask_continue_loop_turn _ _ _ _ (String c' r')
               (complete_lines more ++ String c r));
      try (now rewrite Hcin).
    + rewrite Hy, Hno.
      rewrite (IH (String c' r') c r); auto.
      f_equal. f_equal. unfold with_cin, cerr_put. cbn.
      f_equal. now rewrite !append_assoc'.
    + rewrite Hcin. cbn [cin_of is_buf complete_lines].
      rewrite !append_assoc'.
      now apply split_line_complete.
Qed.

(** X6.  An answer needs no newline: on a terminal, when the input ends
    right after a line that starts with y, Y, n or N, [ask_continue] reads
    that line, returns its answer, and leaves standard input at its end with
    [eofbit] set. *)
Theorem ask_continue_answers_on_unterminated_line
    (answers : list string) (c : ascii) (r : string)
    (l : Logger) (w : World) :
  w_stdin_tty w = true ->
  Forall refused answers ->
  decisive (String c r) ->
  w_cin w = cin_of (complete_lines answers ++ String c r) ->
  ask_continue (S (List.length answers)) (l, w)
  = (Ok (affirmative c),
     (l, after_asking (asked (List.length answers)) (mkIs "" true false) w)).
Proof.
  intros Htty Hall Hlast Hcin.
  rewrite ask_continue_on_terminal by exact Htty.
  rewrite (ask_continue_loop_decides_at_end answers "" c r); auto.
Qed.

Lemma ask_continue_answers_on_unterminated_line_witness :
  ask_continue 1 (Logger_new WARN, world_of true "y")
  = (Ok true,
     (Logger_new WARN,
      after_asking (asked 0) (mkIs "" true false) (world_of true "y"))).
Proof.
  apply (ask_continue_answers_on_unterminated_line
           [] "y"%char "" (Logger_new WARN) (world_of true "y")).
  - reflexivity.
  - constructor.
  - split; reflexivity.
  - reflexivity.
Defined.

(* ================================================================== *)
(** * [log]: what it leaves alone *)
(* ================================================================== *)

Lemma print_and_escalate_frame
    (T_Level : LogLevel) (fuel : nat) (full : string)
    (l : Logger) (w : World) :
  final_logger (print_and_escalate T_Level fuel full l w) = l
  /\ w_stdin_tty (final_world (print_and_escalate T_Level fuel full l w))
     = w_stdin_tty w
  /\ w_clock (final_world (print_and_escalate T_Level fuel full l w))
     = w_clock w
  /\ (exists text,
        w_cerr (final_world (print_and_escalate T_Level fuel full l w))
        = w_cerr w ++ text)
  /\ (exists text,
        w_clog (final_world (print_and_escalate T_Level fuel full l w))
        = w_clog w ++ text)
  /\ (forall e,
        outcome (print_and_escalate T_Level fuel full l w) <> Throw e).
Proof.
  unfold print_and_escalate. cbv zeta.
  set (printed := (if level_ge T_Level WARN
                   then cerr_put full else clog_put full) w).
  assert (Hprinted :
            w_stdin_tty printed = w_stdin_tty w
            /\ w_clock printed = w_clock w
            /\ (exists text, w_cerr printed = w_cerr w ++ text)
            /\ (exists text, w_clog printed = w_clog w ++ text)).
  { unfold printed. destruct (level_ge T_Level WARN); cbn;
      repeat split; eauto;
      try (exists ""; now rewrite append_empty_r). }
  destruct Hprinted as (Ptty & Pclock & (t1 & Pcerr) & (t2 & Pclog)).
  destruct (level_eq T_Level ERROR && m_abort_on_err l).
  - destruct (ask_continue_frame fuel l printed)
      as (Hl & Hclog & _ & t3 & Hcerr).
    destruct (ask_continue_probe fuel l printed) as (Htty & Hclock).
    pose proof (ask_continue_outcome fuel l printed) as Hout.
    unfold outcome, final_logger, final_world in *.
    destruct (ask_continue fuel (l, printed)) as [r s].
    cbn [fst snd] in *.
    assert (Hframe :
              fst s = l
              /\ w_stdin_tty (snd s) = w_stdin_tty w
              /\ w_clock (snd s) = w_clock w
              /\ (exists text, w_cerr (snd s) = w_cerr w ++ text)
              /\ (exists text, w_clog (snd s) = w_clog w ++ text)).
    { repeat split; try congruence.
      - exists (t1 ++ t3). rewrite Hcerr, Pcerr. apply append_assoc'.
      - exists t2. congruence. }
    destruct Hframe as (F1 & F2 & F3 & F4 & F5).
    destruct r as [continue| | | |]; try destruct continue; cbn [fst snd negb];
      repeat split; auto; try discriminate;
      destruct Hout as [[b Hb]|Hb]; discriminate Hb.
  - cbn [fst snd]. repeat split; eauto. discriminate.
Qed.

(** Everything a log call can leave behind, for any formatter. *)
Lemma log_frame
    vformat string_formatter T_Level p_fmt p_args fuel
    (l : Logger) (w : World) :
  let after := log vformat string_formatter T_Level p_fmt p_args fuel (l, w) in
  final_logger after = l
  /\ w_stdin_tty (final_world after) = w_stdin_tty w
  /\ w_clock (final_world after) = w_clock w
  /\ (exists text, w_cerr (final_world after) = w_cerr w ++ text)
  /\ (exists text, w_clog (final_world after) = w_clog w ++ text)
  /\ (forall e, outcome after = Throw e -> final_world after = w).
Proof.
  cbv zeta. rewrite log_run.
  assert (Hsame : forall r : result unit,
             final_logger (r, (l, w)) = l
             /\ w_stdin_tty (final_world (r, (l, w))) = w_stdin_tty w
             /\ w_clock (final_world (r, (l, w))) = w_clock w
             /\ (exists text,
                   w_cerr (final_world (r, (l, w))) = w_cerr w ++ text)
             /\ (exists text,
                   w_clog (final_world (r, (l, w))) = w_clog w ++ text)
             /\ (forall e, outcome (r, (l, w)) = Throw e ->
                           final_world (r, (l, w)) = w)).
  { intros r. cbn. repeat split; auto;
      exists ""; now rewrite append_empty_r. }
  destruct (level_lt T_Level (m_threshold_level l)); [apply Hsame|].
  destruct (outcome (log_line _ _ _ _ _ _)) as [full| | | |];
    try apply Hsame.
  destruct (print_and_escalate_frame T_Level fuel full l w)
    as (H1 & H2 & H3 & H4 & H5 & H6).
  repeat split; auto.
  intros e He. now destruct (H6 e).
Qed.

(** X7.  A log call never changes the logger it is called on, whatever
    its outcome; it leaves the terminal probe and the clock alone; and it
    never takes back output: what [std::cerr] and [std::clog] held before
    the call is the beginning of what they hold after it. *)
Theorem log_only_adds_output
    vformat string_formatter T_Level p_fmt p_args fuel
    (l : Logger) (w : World) :
  final_logger
    (log vformat string_formatter T_Level p_fmt p_args fuel (l, w)) = l
  /\ w_stdin_tty
       (final_world
          (log vformat string_formatter T_Level p_fmt p_args fuel (l, w)))
     = w_stdin_tty w
  /\ w_clock
       (final_world
          (log vformat string_formatter T_Level p_fmt p_args fuel (l, w)))
     = w_clock w
  /\ (exists text,
        w_cerr
          (final_world
             (log vformat string_formatter T_Level p_fmt p_args fuel (l, w)))
        = w_cerr w ++ text)
  /\ (exists text,
        w_clog
          (final_world
             (log vformat string_formatter T_Level p_fmt p_args fuel (l, w)))
        = w_clog w ++ text).
Proof.
  destruct (log_frame vformat string_formatter T_Level p_fmt p_args fuel l w)
    as (H1 & H2 & H3 & H4 & H5 & _).
  repeat split; assumption.
Qed.

(** X8.  A log call that ends in an exception has done nothing: when an
    exception leaves [log], no character was written to either stream,
    nothing was read from standard input, the prompt was not entered, and
    the logger is as it was. *)
Theorem log_exception_leaves_no_trace
    vformat string_formatter T_Level p_fmt p_args fuel
    (l : Logger) (w : World) (e : exception) :
  outcome (log vformat string_formatter T_Level p_fmt p_args fuel (l, w))
  = Throw e ->
  log vformat string_formatter T_Level p_fmt p_args fuel (l, w)
  = (Throw e, (l, w)).
Proof.
  intros He.
  destruct (log_frame vformat string_formatter T_Level p_fmt p_args fuel l w)
    as (H1 & _ & _ & _ & _ & H6).
  specialize (H6 e He).
  unfold outcome, final_logger, final_world in *.
  destruct (log _ _ _ _ _ _ _) as [r [l' w']].
  cbn [fst snd] in *. now subst.
Qed.

Lemma log_exception_leaves_no_trace_witness :
  log std_vformat plain_text INFO (here "{0} and {1}") [arg_int 1] 1
      (Logger_new DEBUG, world_of true "y")
  = (Throw format_error, (Logger_new DEBUG, world_of true "y")).
Proof.
  apply (log_exception_leaves_no_trace
           std_vformat plain_text INFO (here "{0} and {1}") [arg_int 1] 1
           (Logger_new DEBUG) (world_of true "y") format_error).
  reflexivity.
Defined.

(** X9.  With abort-on-error cleared no log call is fatal or interactive:
    at every level the call leaves standard input unread and the prompt
    unentered, whatever the formatter; with the standard formatter and one
    of the four levels it ends by returning or by an exception, never by
    aborting the process. *)
Theorem log_without_abort_on_error
    string_formatter T_Level p_fmt p_args fuel (l : Logger) (w : World) :
  m_abort_on_err l = false ->
  (forall vformat,
     w_cin (final_world
              (log vformat string_formatter T_Level p_fmt p_args fuel (l, w)))
     = w_cin w
     /\ w_ask_calls
          (final_world
             (log vformat string_formatter T_Level p_fmt p_args fuel (l, w)))
        = w_ask_calls w)
  /\ (T_Level <> __LOG_LEVEL_AMOUNT ->
      outcome
        (log std_vformat string_formatter T_Level p_fmt p_args fuel (l, w))
      = Ok tt
      \/ exists e,
           outcome
             (log std_vformat string_formatter T_Level p_fmt p_args fuel
                  (l, w))
           = Throw e).
Proof.
  intros Habort. split.
  - intros vformat. rewrite log_run.
    destruct (level_lt T_Level (m_threshold_level l)); [now cbn|].
    destruct (outcome _) as [full| | | |]; try (now cbn).
    unfold print_and_escalate. rewrite Habort, andb_false_r. cbn.
    now destruct (level_ge T_Level WARN).
  - intros Hlevel. rewrite log_run.
    destruct (level_lt T_Level (m_threshold_level l)); [now left|].
    rewrite log_line_outcome.
    assert (Hlabel : exists labels, label_at T_Level = Ok labels)
      by (destruct T_Level; try congruence; eexists; reflexivity).
    destruct Hlabel as [labels ->]. cbn [result_bind].
    destruct (FmtFacts.vformat_only_format_error (fmt p_fmt) p_args)
      as [[msg ->] | ->]; [|right; now exists format_error].
    cbn [result_bind].
    unfold bare_function_name, substr, result_bind.
    repeat match goal with
           | |- context [if ?c then _ else _] => destruct c
           end;
      try (right; eexists; reflexivity).
    match goal with
    | |- context [std_vformat ?t ?a] =>
      destruct (FmtFacts.vformat_only_format_error t a)
        as [[full ->] | ->]; [|right; now exists format_error]
    end.
    left. unfold print_and_escalate. now rewrite Habort, andb_false_r.
Qed.

Lemma log_without_abort_on_error_witness :
  outcome
    (log std_vformat plain_text ERROR (here "Test ERROR") [] 1
         (abort_on_error false (Logger_new DEBUG), world_of true "n"))
  = Ok tt
  \/ exists e,
       outcome
         (log std_vformat plain_text ERROR (here "Test ERROR") [] 1
              (abort_on_error false (Logger_new DEBUG), world_of true "n"))
       = Throw e.
Proof.
  refine (proj2 (log_without_abort_on_error
                   plain_text ERROR (here "Test ERROR") [] 1
                   (abort_on_error false (Logger_new DEBUG))
                   (world_of true "n") eq_refl) _).
  discriminate.
Defined.

(* ================================================================== *)
(** * [log] at ERROR: the prompt and the terminal *)
(* ================================================================== *)

Lemma print_and_escalate_error
    (fuel : nat) (full : string) (l : Logger) (w : World) :
  m_abort_on_err l = true ->
  print_and_escalate ERROR fuel full l w
  = match ask_continue fuel (l, cerr_put full w) with
    | (Ok continue, s) => if negb continue then (Abort, s) else (Ok tt, s)
    | (Throw e, s) => (Throw e, s)
    | (Abort, s) => (Abort, s)
    | (OutOfBounds, s) => (OutOfBounds, s)
    | (OutOfFuel, s) => (OutOfFuel, s)
    end.
Proof.
  intros Habort. unfold print_and_escalate.
  change (level_ge ERROR WARN) with true.
  change (level_eq ERROR ERROR) with true.
  now rewrite Habort.
Qed.

(** X10.  Without a terminal an ERROR is fatal and silent about it: with
    abort-on-error set and standard input not a terminal, an ERROR call that
    passes the gate and finishes its line writes the line to [std::cerr] and
    aborts the process; no prompt is written and nothing is read. *)
Theorem error_without_terminal_aborts
    vformat string_formatter p_fmt p_args fuel
    (l : Logger) (w : World) (full : string) :
  level_lt ERROR (m_threshold_level l) = false ->
  log_line vformat string_formatter ERROR p_fmt p_args (l, w)
  = (Ok full, (l, w)) ->
  m_abort_on_err l = true ->
  w_stdin_tty w = false ->
  log vformat string_formatter ERROR p_fmt p_args fuel (l, w)
  = (Abort, (l, after_asking full (w_cin w) w)).
Proof.
  intros Hgate Hline Habort Htty.
  rewrite (log_after_line _ _ _ _ _ fuel _ _ _ Hgate Hline).
  rewrite print_and_escalate_error by exact Habort.
  now rewrite ask_continue_without_terminal by exact Htty.
Qed.

Lemma error_without_terminal_aborts_witness :
  log std_vformat plain_text ERROR (here "Test ERROR") [] 0
      (plain_logger, world_of false "y")
  = (Abort,
     (plain_logger,
      after_asking
        ("[05:09.042 error at main( test.cc:9 )]: Test ERROR" ++ Str.NL)
        (cin_of "y") (world_of false "y"))).
Proof.
  apply (error_without_terminal_aborts
           std_vformat plain_text (here "Test ERROR") [] 0
           plain_logger (world_of false "y")
           ("[05:09.042 error at main( test.cc:9 )]: Test ERROR" ++ Str.NL)).
  - reflexivity.
  - vm_compute. reflexivity.
  - reflexivity.
  - reflexivity.
Defined.

(** X11.  On a terminal the operator decides: with abort-on-error set, an
    ERROR call that passes the gate and finishes its line writes the line,
    then asks; after any number of refused lines, a line that starts with y
    or Y lets the call return, a line that is empty or starts with n or N
    aborts the process.  The lines up to the deciding one are consumed, the
    rest of the input is left unread. *)
Theorem error_on_terminal_asks_the_operator
    vformat string_formatter p_fmt p_args
    (l : Logger) (w : World) (full : string)
    (answers : list string) (last rest : string) :
  level_lt ERROR (m_threshold_level l) = false ->
  log_line vformat string_formatter ERROR p_fmt p_args (l, w)
  = (Ok full, (l, w)) ->
  m_abort_on_err l = true ->
  w_stdin_tty w = true ->
  Forall refused answers ->
  decisive last ->
  w_cin w = cin_of (complete_lines answers ++ last ++ Str.NL ++ rest) ->
  log vformat string_formatter ERROR p_fmt p_args
      (S (List.length answers)) (l, w)
  = ((if answer_of last then Ok tt else Abort),
     (l, after_asking (full ++ asked (List.length answers))
                      (cin_of rest) w)).
Proof.
  intros Hgate Hline Habort Htty Hall Hlast Hcin.
  rewrite (log_after_line _ _ _ _ _ _ _ _ _ Hgate Hline).
  rewrite print_and_escalate_error by exact Habort.
  rewrite (ask_continue_on_terminal _ l (cerr_put full w)) by exact Htty.
  rewrite (ask_continue_loop_decides answers "" last rest); auto.
  unfold after_asking, with_cin, cerr_put, count_ask. cbn.
  rewrite append_assoc'.
  now destruct (answer_of last).
Qed.

Lemma error_on_terminal_asks_the_operator_witness :
  log std_vformat plain_text ERROR (here "Test ERROR") [] 2
      (plain_logger, world_of true ("hm" ++ Str.NL ++ "y" ++ Str.NL ++ "z"))
  = (Ok tt,
     (plain_logger,
      after_asking
        (("[05:09.042 error at main( test.cc:9 )]: Test ERROR" ++ Str.NL)
           ++ asked 1)
        (cin_of "z")
        (world_of true ("hm" ++ Str.NL ++ "y" ++ Str.NL ++ "z")))).
Proof.
  apply (error_on_terminal_asks_the_operator
           std_vformat plain_text (here "Test ERROR") []
           plain_logger
           (world_of true ("hm" ++ Str.NL ++ "y" ++ Str.NL ++ "z"))
           ("[05:09.042 error at main( test.cc:9 )]: Test ERROR" ++ Str.NL)
           ["hm"] "y" "z").
  - reflexivity.
  - vm_compute. reflexivity.
  - reflexivity.
  - reflexivity.
  - repeat constructor.
    eexists; eexists; split; [reflexivity | split; reflexivity].
  - split; reflexivity.
  - reflexivity.
Defined.

(* ================================================================== *)
(** * The threshold *)
(* ================================================================== *)

(** X12.  Raising the threshold only silences: a call that is discarded
    under one threshold is discarded, without any effect, under every
    threshold at least as high.  A logger constructed with the enumerator
    that counts the levels discards every call at the four levels, ERROR
    with abort-on-error set included; a logger constructed with DEBUG
    discards none. *)
Theorem threshold_is_monotone
    vformat string_formatter T_Level p_fmt p_args fuel
    (l l' : Logger) (w : World) :
  (level_lt T_Level (m_threshold_level l) = true ->
   level_value (m_threshold_level l) <= level_value (m_threshold_level l') ->
   log vformat string_formatter T_Level p_fmt p_args fuel (l', w)
   = (Ok tt, (l', w)))
  /\ (T_Level <> __LOG_LEVEL_AMOUNT ->
      log vformat string_formatter T_Level p_fmt p_args fuel
          (Logger_new __LOG_LEVEL_AMOUNT, w)
      = (Ok tt, (Logger_new __LOG_LEVEL_AMOUNT, w)))
  /\ level_lt T_Level (m_threshold_level (Logger_new DEBUG)) = false.
Proof.
  split; [|split].
  - intros Hlow Hle. rewrite log_run.
    replace (level_lt T_Level (m_threshold_level l')) with true;
      [reflexivity|].
    symmetry. unfold level_lt in *. apply Z.ltb_lt. apply Z.ltb_lt in Hlow.
    lia.
  - intros Hlevel. rewrite log_run.
    now destruct T_Level.
  - now destruct T_Level.
Qed.

Lemma threshold_is_monotone_witness :
  log std_vformat plain_text DEBUG (here "x") [] 1
      (Logger_new ERROR, world_of true "")
  = (Ok tt, (Logger_new ERROR, world_of true "")).
Proof.
  refine (proj1 (threshold_is_monotone
                   std_vformat plain_text DEBUG (here "x") [] 1
                   (Logger_new INFO) (Logger_new ERROR) (world_of true ""))
                _ _).
  - reflexivity.
  - cbn. lia.
Defined.

(* ================================================================== *)
(** * The built-in templates *)
(* ================================================================== *)

Section Layout.

Variable string_formatter : string -> string -> option string.
Hypothesis string_formatter_default :
  forall value, string_formatter "" value = Some value.

Ltac scan_template :=
  unfold std_vformat;
  match goal with
  | |- context [Fmt.scan Fmt.InText ?t] =>
    let segs := eval vm_compute in (Fmt.scan Fmt.InText t) in
    change (Fmt.scan Fmt.InText t) with segs
  end;
  cbn [Fmt.emit nth_error make_format_args map arg_format option_map];
  rewrite ?string_formatter_default;
  cbn [Fmt.emit nth_error make_format_args map arg_format option_map].

Lemma plain_template_layout (time log_level function file line msg : string) :
  std_vformat (snd m_LOG_FORMATS)
    (make_format_args string_formatter
       [time; log_level; function; file; line; msg])
  = Ok (plain_line time log_level function file line msg).
Proof. scan_template. reflexivity. Qed.

Lemma coloured_template_layout
    (time log_level function file line msg : string) :
  std_vformat (fst m_LOG_FORMATS)
    (make_format_args string_formatter
       [time; log_level; function; file; line; msg])
  = Ok (coloured_line time log_level function file line msg).
Proof. scan_template. reflexivity. Qed.

End Layout.

Lemma label_at_level (T_Level : LogLevel) :
  T_Level <> __LOG_LEVEL_AMOUNT ->
  exists labels,
    label_at T_Level = Ok labels /\ snd labels = level_name T_Level.
Proof.
  intros Hlevel. destruct T_Level; try congruence;
    eexists; split; reflexivity.
Qed.

(** The finished line of a logger without a format of its own. *)
Lemma log_line_built_in
    string_formatter T_Level p_fmt p_args (l : Logger) (w : World)
    (labels : string * string) (msg : string) :
  (forall value, string_formatter "" value = Some value) ->
  label_at T_Level = Ok labels ->
  (Str.size (function_name (source p_fmt)) < Str.npos)%N ->
  m_log_format l = "" ->
  std_vformat (fmt p_fmt) p_args = Ok msg ->
  log_line std_vformat string_formatter T_Level p_fmt p_args (l, w)
  = (Ok ((if m_coloured l then coloured_line else plain_line)
           (render (w_clock w) (m_time_format l))
           (if m_coloured l then fst labels else snd labels)
           (extract_function_name (function_name (source p_fmt)))
           (file_name (source p_fmt))
           (Str.to_string (Z.of_N (line (source p_fmt))))
           msg),
     (l, w)).
Proof.
  intros Hdefault Hlabel Hsize Hempty Hmsg.
  rewrite log_line_run, log_line_outcome, Hlabel. cbn [result_bind].
  rewrite Hmsg. cbn [result_bind].
  rewrite bare_function_name_spec by exact Hsize. cbn [result_bind].
  unfold effective_log_format, log_fields. rewrite Hempty.
  cbn [Str.sv_empty].
  destruct (m_coloured l).
  - now rewrite coloured_template_layout.
  - now rewrite plain_template_layout.
Qed.

(** X13.  The line of a plain logger: with colour off and no format of its
    own, a call at one of the four levels whose message formats to [msg]
    finishes the line "[time level at function( file:line )]: msg" and a
    newline, with the timestamp of the logger's time format, the level's
    lower-case name, the bare function name and the decimal line number.
    Past the gate, DEBUG and INFO append exactly that line to [std::clog]
    and WARN appends it to [std::cerr]. *)
Theorem plain_log_line
    string_formatter T_Level p_fmt p_args fuel (l : Logger) (w : World)
    (msg : string) :
  (forall value, string_formatter "" value = Some value) ->
  T_Level <> __LOG_LEVEL_AMOUNT ->
  (Str.size (function_name (source p_fmt)) < Str.npos)%N ->
  m_coloured l = false ->
  m_log_format l = "" ->
  std_vformat (fmt p_fmt) p_args = Ok msg ->
  let full :=
      plain_line (render (w_clock w) (m_time_format l))
                 (level_name T_Level)
                 (extract_function_name (function_name (source p_fmt)))
                 (file_name (source p_fmt))
                 (Str.to_string (Z.of_N (line (source p_fmt))))
                 msg in
  log_line std_vformat string_formatter T_Level p_fmt p_args (l, w)
  = (Ok full, (l, w))
  /\ (level_lt T_Level (m_threshold_level l) = false ->
      (T_Level = DEBUG \/ T_Level = INFO ->
       log std_vformat string_formatter T_Level p_fmt p_args fuel (l, w)
       = (Ok tt, (l, clog_put full w)))
      /\ (T_Level = WARN ->
          log std_vformat string_formatter T_Level p_fmt p_args fuel (l, w)
          = (Ok tt, (l, cerr_put full w)))).
Proof.
  intros Hdefault Hlevel Hsize Hplain Hempty Hmsg full.
  destruct (label_at_level T_Level Hlevel) as (labels & Hlabel & Hname).
  assert (Hline : log_line std_vformat string_formatter T_Level p_fmt p_args
                           (l, w) = (Ok full, (l, w))).
  { rewrite (log_line_built_in string_formatter T_Level p_fmt p_args l w
               labels msg Hdefault Hlabel Hsize Hempty Hmsg).
    rewrite Hplain, Hname. reflexivity. }
  split; [exact Hline|].
  intros Hgate.
  rewrite (log_after_line _ _ _ _ _ fuel _ _ _ Hgate Hline).
  unfold print_and_escalate.
  split.
  - intros [-> | ->]; reflexivity.
  - intros ->. reflexivity.
Qed.

Lemma plain_log_line_witness :
  log std_vformat plain_text INFO (here "Test {}") [arg_int 7] 0
      (plain_logger, world_of false "")
  = (Ok tt,
     (plain_logger,
      clog_put
        (plain_line "05:09.042" "info" "main" "test.cc" "9" "Test 7")
        (world_of false ""))).
Proof.
  refine (proj1 (proj2 (plain_log_line
                   plain_text INFO (here "Test {}") [arg_int 7] 0
                   plain_logger (world_of false "") "Test 7"
                   (fun value => eq_refl) _ _ eq_refl eq_refl eq_refl)
                   eq_refl) _).
  - discriminate.
  - reflexivity.
  - right. reflexivity.
Defined.

(* ================================================================== *)
(** * Colour is only escape sequences *)
(* ================================================================== *)

Lemma escape_free_append (a b : string) :
  escape_free (a ++ b) = escape_free a && escape_free b.
Proof.
  induction a as [|c a IH]; [reflexivity|].
  cbn [append escape_free]. rewrite IH. now rewrite andb_assoc.
Qed.

Lemma strip_escape_free (a b : string) :
  escape_free a = true ->
  strip_colour_from false (a ++ b) = a ++ strip_colour_from false b.
Proof.
  induction a as [|c a IH]; intros Hfree; [reflexivity|].
  cbn [escape_free] in Hfree.
  apply andb_true_iff in Hfree as [Hc Ha].
  apply negb_true_iff in Hc.
  cbn [append strip_colour_from]. rewrite Hc. now rewrite IH.
Qed.

Lemma escape_free_fill_zero (n : nat) : escape_free (Str.fill n "0") = true.
Proof. induction n as [|n IH]; [reflexivity | exact IH]. Qed.

Lemma escape_free_uint (d : Decimal.uint) :
  escape_free (NilEmpty.string_of_uint d) = true.
Proof. induction d; cbn; auto. Qed.

Lemma escape_free_to_string (v : Z) : escape_free (Str.to_string v) = true.
Proof.
  unfold Str.to_string, NilZero.string_of_int, NilZero.string_of_uint.
  destruct (Z.to_int v) as [d|d]; destruct d; cbn;
    try reflexivity; apply escape_free_uint.
Qed.

Lemma escape_free_zero_pad (width : nat) (v : Z) :
  escape_free (zero_pad width v) = true.
Proof.
  unfold zero_pad.
  now rewrite escape_free_append, escape_free_fill_zero,
    escape_free_to_string.
Qed.

Lemma escape_free_date (t : TimePoint) :
  escape_free (date_YYYY_MM_DD t) = true.
Proof.
  unfold date_YYYY_MM_DD.
  rewrite !escape_free_append, !escape_free_zero_pad, escape_free_to_string.
  reflexivity.
Qed.

Lemma escape_free_render (now : TimePoint) (n : nat) :
  forall fmt, (String.length fmt <= n)%nat ->
              escape_free fmt = true ->
              escape_free (render now fmt) = true.
Proof.
  induction n as [|n IH]; intros fmt Hlen Hfree.
  - destruct fmt; [reflexivity | simpl in Hlen; lia].
  - destruct fmt as [|c r1]; [reflexivity|].
    cbn [escape_free] in Hfree.
    apply andb_true_iff in Hfree as [Hc H1].
    assert (Hlit : escape_free (String c (render now r1)) = true).
    { cbn [escape_free]. rewrite Hc. cbn [andb].
      apply IH; [simpl in Hlen; lia | exact H1]. }
    cbn [render].
    destruct (Ascii.eqb c "%"); [|exact Hlit].
    destruct r1 as [|c1 r2]; [exact Hlit|].
    cbn [escape_free] in H1.
    apply andb_true_iff in H1 as [Hc1 H2].
    assert (Hr2 : escape_free (render now r2) = true)
      by (apply IH; [simpl in Hlen; lia | exact H2]).
    destruct (Ascii.eqb c1 "M").
    { destruct r2 as [|c2 r3].
      - now rewrite escape_free_append, escape_free_zero_pad.
      - destruct (Ascii.eqb c2 "S").
        + rewrite escape_free_append, escape_free_zero_pad.
          cbn [escape_free] in H2.
          apply andb_true_iff in H2 as [_ H3].
          apply IH; [simpl in Hlen; lia | exact H3].
        + now rewrite escape_free_append, escape_free_zero_pad. }
    destruct (Ascii.eqb c1 "S");
      [now rewrite escape_free_append, escape_free_zero_pad|].
    destruct (Ascii.eqb c1 "H");
      [now rewrite escape_free_append, escape_free_zero_pad|].
    destruct (Ascii.eqb c1 "D");
      [now rewrite escape_free_append, escape_free_date|].
    exact Hlit.
Qed.

Lemma escape_free_before_first_paren (s : string) :
  escape_free s = true -> escape_free (before_first_paren s) = true.
Proof.
  induction s as [|c s IH]; intros Hfree; [reflexivity|].
  cbn [escape_free] in Hfree.
  apply andb_true_iff in Hfree as [Hc Hs].
  cbn [before_first_paren].
  destruct (Ascii.eqb c "("); [reflexivity|].
  cbn [escape_free]. rewrite Hc. now apply IH.
Qed.

Lemma escape_free_after_first_space (s r : string) :
  escape_free s = true -> after_first_space s = Some r ->
  escape_free r = true.
Proof.
  revert r. induction s as [|c s IH]; intros r Hfree; [discriminate|].
  cbn [escape_free] in Hfree.
  apply andb_true_iff in Hfree as [Hc Hs].
  cbn [after_first_space].
  destruct (Ascii.eqb c " "); [now intros [= <-] | now apply IH].
Qed.

Lemma escape_free_function_name (signature : string) :
  escape_free signature = true ->
  escape_free (extract_function_name signature) = true.
Proof.
  intros Hfree. unfold extract_function_name.
  apply escape_free_before_first_paren.
  destruct (after_first_space signature) as [r|] eqn:Hr; [|exact Hfree].
  now apply (escape_free_after_first_space signature).
Qed.

(** Under its colour sequences a coloured label is the plain label. *)
Lemma strip_coloured_label (T_Level : LogLevel) (labels : string * string)
    (rest : string) :
  label_at T_Level = Ok labels ->
  strip_colour_from false (fst labels ++ rest)
  = snd labels ++ strip_colour_from false rest
  /\ escape_free (snd labels) = true.
Proof.
  destruct T_Level; intros [= <-]; split; reflexivity.
Qed.

Lemma strip_coloured_line
    (time coloured_label plain_label function file line msg : string) :
  escape_free time = true ->
  escape_free function = true ->
  escape_free file = true ->
  escape_free line = true ->
  escape_free msg = true ->
  (forall rest, strip_colour_from false (coloured_label ++ rest)
                = plain_label ++ strip_colour_from false rest) ->
  strip_colour (coloured_line time coloured_label function file line msg)
  = plain_line time plain_label function file line msg.
Proof.
  intros Htime Hfunction Hfile Hline Hmsg Hlabel.
  unfold strip_colour, coloured_line, plain_line, Str.ESC, Str.NL.
  cbn.
  rewrite strip_escape_free by exact Htime. cbn.
  rewrite Hlabel. cbn.
  rewrite strip_escape_free by exact Hfunction. cbn.
  rewrite strip_escape_free by exact Hfile. cbn.
  rewrite strip_escape_free by exact Hline. cbn.
  rewrite strip_escape_free by exact Hmsg. cbn.
  reflexivity.
Qed.

Lemma escape_free_plain_line
    (time log_level function file line msg : string) :
  escape_free time = true ->
  escape_free log_level = true ->
  escape_free function = true ->
  escape_free file = true ->
  escape_free line = true ->
  escape_free msg = true ->
  escape_free (plain_line time log_level function file line msg) = true.
Proof.
  intros H1 H2 H3 H4 H5 H6. unfold plain_line.
  rewrite !escape_free_append, H1, H2, H3, H4, H5, H6.
  reflexivity.
Qed.

(** X14.  Colour only adds escape sequences: for a logger without a
    format of its own, when the time format, the call site's function and
    file names and the formatted message hold no escape character, the line
    finished with colour on, once its colour sequences are taken out, is the
    line finished with colour off, and that line holds no escape character
    at all. *)
Theorem colour_only_adds_escape_sequences
    string_formatter T_Level p_fmt p_args (l : Logger) (w : World)
    (msg : string) :
  (forall value, string_formatter "" value = Some value) ->
  T_Level <> __LOG_LEVEL_AMOUNT ->
  (Str.size (function_name (source p_fmt)) < Str.npos)%N ->
  m_log_format l = "" ->
  std_vformat (fmt p_fmt) p_args = Ok msg ->
  escape_free (m_time_format l) = true ->
  escape_free (function_name (source p_fmt)) = true ->
  escape_free (file_name (source p_fmt)) = true ->
  escape_free msg = true ->
  exists coloured plain,
    log_line std_vformat string_formatter T_Level p_fmt p_args
             (set_coloured_log true l, w)
    = (Ok coloured, (set_coloured_log true l, w))
    /\ log_line std_vformat string_formatter T_Level p_fmt p_args
                (set_coloured_log false l, w)
       = (Ok plain, (set_coloured_log false l, w))
    /\ strip_colour coloured = plain
    /\ escape_free plain = true.
Proof.
  intros Hdefault Hlevel Hsize Hempty Hmsg Htime Hfunction Hfile Hfree.
  destruct (label_at_level T_Level Hlevel) as (labels & Hlabel & _).
  pose proof (escape_free_render (w_clock w) _ _ (Nat.le_refl _) Htime)
    as Hstamp.
  pose proof (escape_free_function_name _ Hfunction) as Hname.
  pose proof (escape_free_to_string (Z.of_N (line (source p_fmt)))) as Hno.
  eexists. eexists.
  split; [|split; [|split]].
  - apply (log_line_built_in string_formatter T_Level p_fmt p_args
             (set_coloured_log true l) w labels msg); auto.
  - apply (log_line_built_in string_formatter T_Level p_fmt p_args
             (set_coloured_log false l) w labels msg); auto.
  - cbn [m_coloured set_coloured_log m_time_format].
    apply strip_coloured_line; auto.
    intros rest.
    apply (strip_coloured_label T_Level labels rest Hlabel).
  - cbn [m_coloured set_coloured_log m_time_format].
    apply escape_free_plain_line; auto.
    apply (strip_coloured_label T_Level labels "" Hlabel).
Qed.

Lemma colour_only_adds_escape_sequences_witness :
  exists coloured plain,
    log_line std_vformat plain_text WARN (here "Test warn") []
             (set_coloured_log true (Logger_new DEBUG), world_of false "")
    = (Ok coloured,
       (set_coloured_log true (Logger_new DEBUG), world_of false ""))
    /\ log_line std_vformat plain_text WARN (here "Test warn") []
                (set_coloured_log false (Logger_new DEBUG), world_of false "")
       = (Ok plain,
          (set_coloured_log false (Logger_new DEBUG), world_of false ""))
    /\ strip_colour coloured = plain
    /\ escape_free plain = true.
Proof.
  apply (colour_only_adds_escape_sequences
           plain_text WARN (here "Test warn") []
           (Logger_new DEBUG) (world_of false "") "Test warn");
    try reflexivity.
  discriminate.
Defined.

(* ================================================================== *)
(** * The logger's own format *)
(* ================================================================== *)

(** What follows the finished line depends on the logger through its
    abort-on-error flag only. *)
Lemma print_and_escalate_blind
    (T_Level : LogLevel) (fuel : nat) (full : string)
    (l1 l2 : Logger) (w : World) :
  m_abort_on_err l1 = m_abort_on_err l2 ->
  outcome (print_and_escalate T_Level fuel full l1 w)
  = outcome (print_and_escalate T_Level fuel full l2 w)
  /\ final_world (print_and_escalate T_Level fuel full l1 w)
     = final_world (print_and_escalate T_Level fuel full l2 w).
Proof.
  intros Habort. unfold print_and_escalate. cbv zeta. rewrite Habort.
  destruct (level_eq T_Level ERROR && m_abort_on_err l2); [|now cbn].
  destruct (ask_continue_blind fuel l1 l2
              ((if level_ge T_Level WARN
                then cerr_put full else clog_put full) w)) as (Ho & Hw).
  unfold outcome, final_world in *.
  destruct (ask_continue fuel (l1, _)) as [r1 s1];
  destruct (ask_continue fuel (l2, _)) as [r2 s2].
  cbn [fst snd] in Ho, Hw. subst r2.
  destruct r1 as [continue| | | |]; try destruct continue;
    split; (reflexivity || exact Hw).
Qed.

(** Two loggers that hand the same template to [format] and agree on the
    other fields that [log] reads. *)
Lemma log_same_template
    vformat string_formatter T_Level p_fmt p_args fuel
    (l1 l2 : Logger) (w : World) :
  m_threshold_level l1 = m_threshold_level l2 ->
  m_time_format l1 = m_time_format l2 ->
  m_coloured l1 = m_coloured l2 ->
  m_abort_on_err l1 = m_abort_on_err l2 ->
  effective_log_format l1 = effective_log_format l2 ->
  outcome (log vformat string_formatter T_Level p_fmt p_args fuel (l1, w))
  = outcome (log vformat string_formatter T_Level p_fmt p_args fuel (l2, w))
  /\ final_world
       (log vformat string_formatter T_Level p_fmt p_args fuel (l1, w))
     = final_world
         (log vformat string_formatter T_Level p_fmt p_args fuel (l2, w)).
Proof.
  intros Hthreshold Htime Hcoloured Habort Htemplate.
  rewrite !log_run, !log_line_outcome.
  unfold log_fields.
  rewrite Hthreshold, Htime, Hcoloured, Htemplate.
  destruct (level_lt T_Level (m_threshold_level l2)); [now cbn|].
  destruct (result_bind _ _) as [full| | | |]; try (now cbn).
  now apply print_and_escalate_blind.
Qed.

(** X15.  An empty format is never a template of its own: after the
    format is cleared, or set to the empty string, every log call has the
    outcome and leaves the environment it would have with the built-in
    template for the logger's colour setting set as its format. *)
Theorem empty_log_format_is_the_built_in
    vformat string_formatter T_Level p_fmt p_args fuel
    (l : Logger) (w : World) :
  set_log_format_clear l = set_log_format "" l
  /\ outcome (log vformat string_formatter T_Level p_fmt p_args fuel
                  (set_log_format_clear l, w))
     = outcome (log vformat string_formatter T_Level p_fmt p_args fuel
                    (set_log_format (built_in_format (m_coloured l)) l, w))
  /\ final_world (log vformat string_formatter T_Level p_fmt p_args fuel
                      (set_log_format_clear l, w))
     = final_world (log vformat string_formatter T_Level p_fmt p_args fuel
                        (set_log_format (built_in_format (m_coloured l)) l,
                         w)).
Proof.
  split; [reflexivity|].
  apply log_same_template; try reflexivity.
  unfold effective_log_format, set_log_format_clear, built_in_format.
  cbn [m_log_format m_coloured set_log_format Str.sv_empty].
  now destruct (m_coloured l).
Qed.

(** Text without braces scans to itself. *)
Lemma scan_brace_free (t : string) :
  brace_free t = true ->
  exists segs,
    Fmt.scan Fmt.InText t = Some segs
    /\ forall args mode next, Fmt.emit segs args mode next = Some t.
Proof.
  induction t as [|c t IH]; intros Hfree.
  - exists []. split; reflexivity.
  - cbn [brace_free] in Hfree.
    apply andb_true_iff in Hfree as [Hc Ht].
    apply andb_true_iff in Hc as [Hopen Hclose].
    apply negb_true_iff in Hopen. apply negb_true_iff in Hclose.
    destruct (IH Ht) as (segs & Hscan & Hemit).
    exists (Fmt.Text c :: segs). split.
    + cbn [Fmt.scan]. rewrite Hopen, Hclose, Hscan. reflexivity.
    + intros args mode next. cbn [Fmt.emit]. now rewrite Hemit.
Qed.

Lemma vformat_brace_free (t : string) (args : list format_arg) :
  brace_free t = true -> std_vformat t args = Ok t.
Proof.
  intros Hfree. unfold std_vformat.
  destruct (scan_brace_free t Hfree) as (segs & -> & Hemit).
  now rewrite Hemit.
Qed.

(** X16.  A format without braces is printed as it is: when the logger's
    own format is not empty and holds neither brace, every call at one of
    the four levels whose message formats finishes that very text as its
    line, whatever the time, the call site and the message. *)
Theorem log_format_without_fields_is_verbatim
    string_formatter T_Level p_fmt p_args (l : Logger) (w : World)
    (msg : string) :
  T_Level <> __LOG_LEVEL_AMOUNT ->
  (Str.size (function_name (source p_fmt)) < Str.npos)%N ->
  m_log_format l <> "" ->
  brace_free (m_log_format l) = true ->
  std_vformat (fmt p_fmt) p_args = Ok msg ->
  log_line std_vformat string_formatter T_Level p_fmt p_args (l, w)
  = (Ok (m_log_format l), (l, w)).
Proof.
  intros Hlevel Hsize Hown Hfree Hmsg.
  destruct (label_at_level T_Level Hlevel) as (labels & Hlabel & _).
  rewrite log_line_run, log_line_outcome, Hlabel. cbn [result_bind].
  rewrite Hmsg. cbn [result_bind].
  rewrite bare_function_name_spec by exact Hsize. cbn [result_bind].
  unfold effective_log_format.
  destruct (m_log_format l) as [|c r] eqn:Hformat; [congruence|].
  cbn [Str.sv_empty].
  now rewrite vformat_brace_free.
Qed.

Lemma log_format_without_fields_is_verbatim_witness :
  log_line std_vformat plain_text INFO (here "Test info") []
           (set_log_format "tick" (Logger_new DEBUG), world_of false "")
  = (Ok "tick", (set_log_format "tick" (Logger_new DEBUG), world_of false "")).
Proof.
  apply (log_format_without_fields_is_verbatim
           plain_text INFO (here "Test info") []
           (set_log_format "tick" (Logger_new DEBUG)) (world_of false "")
           "Test info"); try reflexivity; discriminate.
Defined.

(* ================================================================== *)
(** * Function names: composing and extracting *)
(* ================================================================== *)

Lemma after_first_space_composed (ret rest : string) :
  lacks " " ret = true ->
  after_first_space (ret ++ " " ++ rest) = Some rest.
Proof.
  induction ret as [|c ret IH]; intros Hfree; [reflexivity|].
  cbn [lacks] in Hfree.
  apply andb_true_iff in Hfree as [Hc Hret].
  apply negb_true_iff in Hc.
  cbn [append after_first_space]. rewrite Hc. now apply IH.
Qed.

Lemma after_first_space_none (s : string) :
  lacks " " s = true -> after_first_space s = None.
Proof.
  induction s as [|c s IH]; intros Hfree; [reflexivity|].
  cbn [lacks] in Hfree.
  apply andb_true_iff in Hfree as [Hc Hs].
  apply negb_true_iff in Hc.
  cbn [after_first_space]. rewrite Hc. now apply IH.
Qed.

Lemma before_first_paren_composed (name params : string) :
  lacks "(" name = true ->
  before_first_paren (name ++ "(" ++ params) = name.
Proof.
  induction name as [|c name IH]; intros Hfree; [reflexivity|].
  cbn [lacks] in Hfree.
  apply andb_true_iff in Hfree as [Hc Hname].
  apply negb_true_iff in Hc.
  cbn [append before_first_paren]. rewrite Hc. f_equal. now apply IH.
Qed.

Lemma before_first_paren_lacks (s : string) :
  lacks "(" (before_first_paren s) = true.
Proof.
  induction s as [|c s IH]; [reflexivity|].
  cbn [before_first_paren].
  destruct (Ascii.eqb c "(") eqn:Hc; [reflexivity|].
  cbn [lacks]. now rewrite Hc.
Qed.

(** X17.  Extraction undoes composition: from a signature made of a
    return type without a space, a space, a name without an opening
    parenthesis, and a parenthesised parameter list, the name comes back,
    whatever the parameters; a signature without a return type gives its
    name when it holds no space at all.  The extracted name never holds an
    opening parenthesis. *)
Theorem bare_function_name_of_composed_signature
    (ret name params signature : string) :
  (lacks " " ret = true ->
   lacks "(" name = true ->
   (Str.size (ret ++ " " ++ name ++ "(" ++ params) < Str.npos)%N ->
   bare_function_name (ret ++ " " ++ name ++ "(" ++ params) = Ok name)
  /\ (lacks " " (name ++ "(" ++ params) = true ->
      lacks "(" name = true ->
      (Str.size (name ++ "(" ++ params) < Str.npos)%N ->
      bare_function_name (name ++ "(" ++ params) = Ok name)
  /\ ((Str.size signature < Str.npos)%N ->
      exists bare,
        bare_function_name signature = Ok bare /\ lacks "(" bare = true).
Proof.
  split; [|split].
  - intros Hret Hname Hsize.
    rewrite bare_function_name_spec by exact Hsize.
    unfold extract_function_name.
    rewrite after_first_space_composed by exact Hret.
    cbv iota. now rewrite before_first_paren_composed.
  - intros Hspace Hname Hsize.
    rewrite bare_function_name_spec by exact Hsize.
    unfold extract_function_name.
    rewrite after_first_space_none by exact Hspace.
    cbv iota. now rewrite before_first_paren_composed.
  - intros Hsize.
    exists (extract_function_name signature).
    split; [now apply bare_function_name_spec|].
    apply before_first_paren_lacks.
Qed.

Lemma bare_function_name_of_composed_signature_witness :
  bare_function_name ("void" ++ " " ++ "ns::Class::method" ++ "(" ++ "int, float)")
  = Ok "ns::Class::method".
Proof.
  refine (proj1 (bare_function_name_of_composed_signature
                   "void" "ns::Class::method" "int, float)" "")
                _ _ _); reflexivity.
Defined.

(* ================================================================== *)
(** * The test program *)
(* ================================================================== *)

Lemma custom_template_layout
    (string_formatter : string -> string -> option string)
    (time log_level function file line msg : string) :
  (forall value, string_formatter "" value = Some value) ->
  std_vformat ("[{0} {1} {2} {3}:{4}] >> {5}" ++ Str.NL)
    (make_format_args string_formatter
       [time; log_level; function; file; line; msg])
  = Ok ("[" ++ time ++ " " ++ log_level ++ " " ++ function ++ " " ++ file
            ++ ":" ++ line ++ "] >> " ++ msg ++ Str.NL).
Proof.
  intros Hdefault.
  unfold std_vformat.
  match goal with
  | |- context [Fmt.scan Fmt.InText ?t] =>
    let segs := eval vm_compute in (Fmt.scan Fmt.InText t) in
    change (Fmt.scan Fmt.InText t) with segs
  end.
  cbn [Fmt.emit nth_error make_format_args map arg_format option_map].
  rewrite ?Hdefault.
  cbn [Fmt.emit nth_error make_format_args map arg_format option_map].
  reflexivity.
Qed.

(** A call that finishes its line and does not ask returns after printing. *)
Lemma log_returns_after_printing
    vformat string_formatter T_Level p_fmt p_args fuel
    (l : Logger) (w : World) (full : string) :
  level_lt T_Level (m_threshold_level l) = false ->
  log_line vformat string_formatter T_Level p_fmt p_args (l, w)
  = (Ok full, (l, w)) ->
  level_eq T_Level ERROR && m_abort_on_err l = false ->
  log vformat string_formatter T_Level p_fmt p_args fuel (l, w)
  = (Ok tt,
     (l, (if level_ge T_Level WARN then cerr_put full else clog_put full) w)).
Proof.
  intros Hgate Hline Hquiet.
  rewrite (log_after_line _ _ _ _ _ fuel _ _ _ Hgate Hline).
  unfold print_and_escalate. now rewrite Hquiet.
Qed.

Lemma coloured_label_at (T_Level : LogLevel) :
  T_Level <> __LOG_LEVEL_AMOUNT ->
  exists labels,
    label_at T_Level = Ok labels /\ fst labels = coloured_label T_Level.
Proof.
  intros Hlevel. destruct T_Level; try congruence;
    eexists; split; reflexivity.
Qed.

(** A call of [main] on a coloured logger without a format of its own. *)
Lemma main_call_built_in
    string_formatter file signature readings
    T_Level (n : N) (text msg : string) p_args (fuel : nat)
    (l : Logger) (w : World) :
  (forall value, string_formatter "" value = Some value) ->
  (Str.size signature < Str.npos)%N ->
  T_Level <> __LOG_LEVEL_AMOUNT ->
  level_lt T_Level (m_threshold_level l) = false ->
  m_coloured l = true ->
  m_log_format l = "" ->
  level_eq T_Level ERROR && m_abort_on_err l = false ->
  std_vformat text p_args = Ok msg ->
  log std_vformat string_formatter T_Level
      (line_of_main file signature n text) p_args fuel
      (l, at_time (readings n) w)
  = (Ok tt,
     (l, (if level_ge T_Level WARN then cerr_put else clog_put)
           (main_line file signature readings T_Level (m_time_format l) n
                      msg)
           (at_time (readings n) w))).
Proof.
  intros Hdefault Hsize Hlevel Hgate Hcoloured Hempty Hquiet Hmsg.
  destruct (coloured_label_at T_Level Hlevel) as (labels & Hlabel & Hname).
  rewrite (log_returns_after_printing _ _ _ _ _ fuel l _
             (main_line file signature readings T_Level (m_time_format l) n
                        msg) Hgate); auto.
  - now destruct (level_ge T_Level WARN).
  - rewrite (log_line_built_in string_formatter T_Level _ p_args l _
               labels msg Hdefault Hlabel); auto.
    rewrite Hcoloured, Hname. reflexivity.
Qed.

(** A call of [main] on a coloured logger with a format of its own. *)
Lemma main_call_own_format
    string_formatter file signature readings
    T_Level (n : N) (text msg full : string) p_args (fuel : nat)
    (l : Logger) (w : World) :
  (Str.size signature < Str.npos)%N ->
  T_Level <> __LOG_LEVEL_AMOUNT ->
  level_lt T_Level (m_threshold_level l) = false ->
  m_coloured l = true ->
  Str.sv_empty (m_log_format l) = false ->
  level_eq T_Level ERROR && m_abort_on_err l = false ->
  std_vformat text p_args = Ok msg ->
  std_vformat (m_log_format l)
    (make_format_args string_formatter
       [render (readings n) (m_time_format l); coloured_label T_Level;
        extract_function_name signature; file; Str.to_string (Z.of_N n);
        msg])
  = Ok full ->
  log std_vformat string_formatter T_Level
      (line_of_main file signature n text) p_args fuel
      (l, at_time (readings n) w)
  = (Ok tt,
     (l, (if level_ge T_Level WARN then cerr_put else clog_put) full
           (at_time (readings n) w))).
Proof.
  intros Hsize Hlevel Hgate Hcoloured Hown Hquiet Hmsg Hfull.
  destruct (coloured_label_at T_Level Hlevel) as (labels & Hlabel & Hname).
  rewrite (log_returns_after_printing _ _ _ _ _ fuel l _ full Hgate); auto.
  - now destruct (level_ge T_Level WARN).
  - rewrite log_line_run, log_line_outcome, Hlabel. cbn [result_bind].
    cbn [fmt line_of_main source function_name file_name line].
    rewrite Hmsg. cbn [result_bind].
    rewrite bare_function_name_spec by exact Hsize. cbn [result_bind].
    unfold effective_log_format, log_fields. rewrite Hown, Hcoloured, Hname.
    cbn [w_clock at_time source line_of_main function_name file_name line].
    now rewrite Hfull.
Qed.

(** A call below the threshold. *)
Lemma log_discards
    vformat string_formatter T_Level p_fmt p_args fuel
    (l : Logger) (w : World) :
  level_lt T_Level (m_threshold_level l) = true ->
  log vformat string_formatter T_Level p_fmt p_args fuel (l, w)
  = (Ok tt, (l, w)).
Proof. intros Hlow. now rewrite log_run, Hlow. Qed.

(** X18.  The test program runs to its end on every clock and every
    standard input: [main] returns 0 without reading standard input and
    without entering the prompt, although it logs an ERROR, since
    abort-on-error was cleared before.  It writes five lines to [std::clog]
    and three to [std::cerr]: the call on a logger with threshold INFO
    prints nothing, the copy of the logger prints at DEBUG as the original
    does, and after [set_time_format()] the timestamps are milliseconds,
    seconds, minutes. *)
Theorem main_runs_to_completion
    string_formatter file signature readings (fuel : nat) (w : World) :
  (forall value, string_formatter "" value = Some value) ->
  (Str.size signature < Str.npos)%N ->
  main string_formatter file signature readings fuel w
  = (Ok 0,
     mkWorld (w_cerr w ++ main_cerr file signature readings)
             (w_clog w ++ main_clog file signature readings)
             (w_cin w) (w_stdin_tty w) (readings 31%N) (w_ask_calls w)).
Proof.
  intros Hdefault Hsize.
  unfold main, log_on_line, statement.
  rewrite (main_call_built_in string_formatter file signature readings
             DEBUG 9 "Test debug" "Test debug" [] fuel);
    try reflexivity; auto; try discriminate.
  rewrite (main_call_built_in string_formatter file signature readings
             INFO 10 "Test info" "Test info" [] fuel);
    try reflexivity; auto; try discriminate.
  rewrite (main_call_built_in string_formatter file signature readings
             WARN 11 "Test warn" "Test warn" [] fuel);
    try reflexivity; auto; try discriminate.
  rewrite (main_call_built_in string_formatter file signature readings
             INFO 14 "Test time" "Test time" [] fuel);
    try reflexivity; auto; try discriminate.
  rewrite (main_call_own_format string_formatter file signature readings
             WARN 18 "Test log format {}" "Test log format 1"
             ("[" ++ render (readings 18%N) "%MS.%S:%M" ++ " "
                  ++ coloured_label WARN ++ " "
                  ++ extract_function_name signature ++ " " ++ file
                  ++ ":" ++ "18" ++ "] >> " ++ "Test log format 1"
                  ++ Str.NL)
             [arg_int 1] fuel);
    try reflexivity; auto; try discriminate;
    [| now apply (custom_template_layout string_formatter)].
  rewrite (main_call_built_in string_formatter file signature readings
             ERROR 22 "Test ERROR" "Test ERROR" [] fuel);
    try reflexivity; auto; try discriminate.
  rewrite log_discards by reflexivity.
  rewrite (main_call_built_in string_formatter file signature readings
             DEBUG 30 "TEST LOGGER" "TEST LOGGER" [] fuel);
    try reflexivity; auto; try discriminate.
  rewrite (main_call_built_in string_formatter file signature readings
             DEBUG 31 "TEST OTHER" "TEST OTHER" [] fuel);
    try reflexivity; auto; try discriminate.
  unfold main_cerr, main_clog, cerr_put, clog_put, at_time.
  cbn -[main_line render coloured_label extract_function_name append].
  f_equal. f_equal.
  - rewrite !append_assoc'. reflexivity.
  - rewrite !append_assoc'. reflexivity.
Qed.

Lemma main_runs_to_completion_witness :
  main plain_text "test.cc" "int main()" (fun _ => t_13_05_09_042) 0
       (world_of true "n")
  = (Ok 0,
     mkWorld
       ("" ++ main_cerr "test.cc" "int main()" (fun _ => t_13_05_09_042))
       ("" ++ main_clog "test.cc" "int main()" (fun _ => t_13_05_09_042))
       (cin_of "n") true t_13_05_09_042 0).
Proof.
  apply (main_runs_to_completion
           plain_text "test.cc" "int main()" (fun _ => t_13_05_09_042) 0
           (world_of true "n")).
  - intros value. reflexivity.
  - reflexivity.
Defined.

(* ================================================================== *)
(** * More edges: the end of the input inside a line, the fifth level *)
(* ================================================================== *)

(** The loop on refused lines followed by a refused line without its
    newline: whatever the bound, it has not returned. *)
Lemma ask_continue_loop_never_returns (answers : list string) :
  forall (fuel : nat) (line0 : string) (c : ascii) (r : string)
         (l : Logger) (w : World),
    Forall refused answers ->
    refused (String c r) ->
    w_cin w = cin_of (complete_lines answers ++ String c r) ->
    outcome (ask_continue_loop fuel line0 (l, w)) = OutOfFuel.
Proof.
  induction answers as [|answer more IH];
    intros fuel line0 c r l w Hall Hlast Hcin;
    (destruct fuel as [|fuel]; [reflexivity|]).
  - destruct Hlast as [Hnone (c' & r' & Heq & Hy & Hn)].
    injection Heq as <- <-.
    cbn [complete_lines append] in Hcin.
    cbn [ask_continue_loop].
    unfold bind, modify_world, world, lift, ret. cbn [fst snd].
    unfold getline. cbn [w_cin cerr_put].
    rewrite Hcin. cbn [cin_of is_eof is_fail is_buf orb].
    rewrite Hnone. cbn [fst snd Str.sv_empty at0 String.get].
    unfold affirmative, negative in Hy, Hn. rewrite Hy, Hn.
    cbn [fst snd].
    apply ask_continue_loop_spins; auto.
  - inversion Hall as [|x xs [Hn (c' & r' & -> & Hy & Hno)] Hmore]; subst.
    rewrite (ask_continue_loop_turn _ _ _ _ (String c' r')
               (complete_lines more ++ String c r));
      try (now rewrite Hcin).
    + rewrite Hy, Hno. now apply (IH fuel (String c' r') c r).
    + rewrite Hcin. cbn [cin_of is_buf complete_lines].
      rewrite !append_assoc'.
      now apply split_line_complete.
Qed.

(** X19.  On a terminal, whenever the input ends inside a line that is
    neither empty nor an answer, [ask_continue] never returns, however
    many complete lines of that kind came before: whatever the bound on the
    number of turns, the loop is still asking. *)
Theorem ask_continue_never_returns_inside_a_refused_line
    (answers : list string) (last : string) (fuel : nat)
    (l : Logger) (w : World) :
  w_stdin_tty w = true ->
  Forall refused answers ->
  refused last ->
  w_cin w = cin_of (complete_lines answers ++ last) ->
  outcome (ask_continue fuel (l, w)) = OutOfFuel.
Proof.
  intros Htty Hall Hlast Hcin.
  rewrite ask_continue_on_terminal by exact Htty.
  destruct Hlast as [Hnone (c & r & -> & Hy & Hn)].
  apply (ask_continue_loop_never_returns answers fuel "" c r); auto.
  split; [exact Hnone | now exists c, r].
Qed.

Lemma ask_continue_never_returns_inside_a_refused_line_witness :
  outcome
    (ask_continue 50
       (Logger_new WARN, world_of true ("what" ++ Str.NL ++ "hm")))
  = OutOfFuel.
Proof.
  apply (ask_continue_never_returns_inside_a_refused_line
           ["what"] "hm" 50 (Logger_new WARN)
           (world_of true ("what" ++ Str.NL ++ "hm"))).
  - reflexivity.
  - repeat constructor.
    eexists; eexists; split; [reflexivity | split; reflexivity].
  - split; [reflexivity|].
    eexists; eexists; split; [reflexivity | split; reflexivity].
  - reflexivity.
Defined.

